(** * RegistrationStorage: a browser-local store of registration records

    Shallow embedding of [src/save_registration_updated.js] (class
    [RegistrationStorage]) and the properties of its operations.

    Modelling choices, fixed once for the whole development:

    - A JavaScript object that came out of [JSON.parse], or that is about to
      go through [JSON.stringify], is a finite map from property names to
      JSON values ([gmap string value]); [undefined] is the absence of a
      value ([None] in an [option value]).
    - Numbers are exact rationals ([Q]) in place of binary64 doubles: the
      program only compares them, tests them for zero, prints them and adds
      a clock reading to a random fraction.
    - A text (the item kept in [localStorage], the contents of an imported
      file) is known by what [JSON.parse] makes of it, see [text].
    - [Date.now()], [new Date().toISOString()] and [Math.random()] are reads
      of the environment: their results are arguments of the operations.
    - Strings are sequences of bytes (UTF-8).
    - [localStorage] is reliable: [setItem] always stores the text; an
      imported file can always be read.
    - [alert] and [console.log] only talk to the user and are left out.  A
      download does not change the store: the functions that start one
      return it as a value ([download]) beside their result, and
      [saveToJSON] is given without the download it starts, which is
      [downloadAllRegistrations] on the state it leaves. *)

From Stdlib Require Import QArith Ascii.
From stdpp Require Import gmap strings list fin_maps pretty.

Set Default Proof Using "Type".
#[local] Set Warnings "-register-all".

(** ** Values *)

Inductive value :=
  | JNull
  | JBool (b : bool)
  | JNum (q : Q)
  | JStr (s : string)
  | JArr (l : list value)
  | JObj (o : gmap string value).

(** The completion of an evaluation: a result, or a thrown exception. *)
Inductive exn := TypeError | SyntaxError | FormatError.

Inductive completion (A : Type) :=
  | Normal (a : A)
  | Throw (e : exn).
Arguments Normal {A} a.
Arguments Throw {A} e.

#[global] Instance completion_ret : MRet completion := @Normal.
#[global] Instance completion_bind : MBind completion :=
  λ A B f c, match c with Normal a => f a | Throw e => Throw e end.
#[global] Instance completion_fmap : FMap completion :=
  λ A B f c, match c with Normal a => Normal (f a) | Throw e => Throw e end.

Module JS.

(** The empty string, and the double quote character (code 34). *)
Definition empty : string := EmptyString.
Definition dquote : string :=
  String (Ascii.Ascii false true false false false true false false) EmptyString.

(** ToBoolean. *)
Definition truthy (v : value) : bool :=
  match v with
  | JNull => false
  | JBool b => b
  | JNum q => negb (Qeq_bool q 0)
  | JStr s => negb (String.eqb s empty)
  | JArr _ | JObj _ => true
  end.

Definition truthy_opt (v : option value) : bool :=
  match v with Some v => truthy v | None => false end.

(** [a === b].  Arrays and objects are compared by reference: the two
    sides of every comparison in this program come from different
    evaluations ([JSON.parse] of the store on one side, the caller's
    argument on the other), so they are never the same object. *)
Definition strict_eq (a b : option value) : bool :=
  match a, b with
  | None, None => true
  | Some JNull, Some JNull => true
  | Some (JBool x), Some (JBool y) => Bool.eqb x y
  | Some (JNum x), Some (JNum y) => Qeq_bool x y
  | Some (JStr x), Some (JStr y) => String.eqb x y
  | _, _ => false
  end.

(** [v.k] for the data property names this program reads ([id], [name],
    [type], [registrations], ...), none of which is inherited from a
    prototype: reading a property of [null] throws, a primitive or an
    array has no such property. *)
Definition get (v : value) (k : string) : completion (option value) :=
  match v with
  | JNull => Throw TypeError
  | JObj o => Normal (o !! k)
  | _ => Normal None
  end.

(** [Array.prototype.find] and [Array.prototype.filter] with a callback
    that may throw. *)
Fixpoint find (p : value → completion bool) (l : list value)
  : completion (option value) :=
  match l with
  | [] => Normal None
  | x :: l' => b ← p x; if b : bool then Normal (Some x) else find p l'
  end.

Fixpoint findIndex (p : value → completion bool) (l : list value)
  : completion (option nat) :=
  match l with
  | [] => Normal None
  | x :: l' =>
      b ← p x;
      if b : bool then Normal (Some 0)
      else i ← findIndex p l'; Normal (option_map S i)
  end.

Fixpoint filter (p : value → completion bool) (l : list value)
  : completion (list value) :=
  match l with
  | [] => Normal []
  | x :: l' =>
      b ← p x; r ← filter p l';
      Normal (if b : bool then x :: r else r)
  end.

End JS.

(** ** Texts and the store *)

(** A text, up to what the program can observe of it: whether it is the
    empty string (the only falsy string), and what [JSON.parse] returns.
    [JSON.stringify v] is a text that [JSON.parse] reads back as [v]: the
    values of the model are JSON values, which survive the round trip. *)
Inductive text :=
  | Blank                (* the empty string; JSON.parse rejects it *)
  | Malformed            (* a non-empty text that JSON.parse rejects *)
  | Encodes (v : value). (* a text that JSON.parse reads as v *)

Definition JSON_parse (t : text) : completion value :=
  match t with
  | Blank | Malformed => Throw SyntaxError
  | Encodes v => Normal v
  end.

Definition JSON_stringify (v : value) : text := Encodes v.

Definition text_truthy (t : option text) : bool :=
  match t with
  | None | Some Blank => false
  | Some _ => true
  end.

(** The state of a [RegistrationStorage] object: its [currentData] field and
    the [localStorage] item under [storageKey] ('all_registrations'),
    [None] when there is no such item. *)
Record state := State {
  currentData : option (gmap string value);
  item : option text
}.

Definition getItem (st : state) : option text := item st.
Definition setItem (t : text) (st : state) : state :=
  State (currentData st) (Some t).
Definition removeItem (st : state) : state :=
  State (currentData st) None.

(** ** The operations *)

Definition getAllRegistrations (st : state) : value :=
  let stored := getItem st in
  if text_truthy stored then
    match stored with
    | Some t =>
        match JSON_parse t with
        | Normal v => v
        | Throw _ => JArr []
        end
    | None => JArr []
    end
  else JArr [].

(** The callback [reg => reg.id === id]. *)
Definition has_id (id : Q) (reg : value) : completion bool :=
  i ← JS.get reg "id"; Normal (JS.strict_eq i (Some (JNum id))).

Definition getRegistrationById (id : Q) (st : state)
  : completion (option value) :=
  match getAllRegistrations st with
  | JArr registrations =>
      found ← JS.find (has_id id) registrations;
      Normal (if JS.truthy_opt found then found else None)
  | _ => Throw TypeError
  end.

(** [{...data, id: Date.now(), submittedAt: ..., version: '1.0'}] *)
Definition with_metadata (now : Z) (iso : string) (data : gmap string value)
  : gmap string value :=
  <["version" := JStr "1.0"]>
    (<["submittedAt" := JStr iso]>
       (<["id" := JNum (inject_Z now)]> data)).

(** [allRegistrations.push(x)] *)
Definition push (x : value) (arr : value) : completion value :=
  match arr with
  | JArr l => Normal (JArr (l ++ [x]))
  | _ => Throw TypeError
  end.

Definition saveToJSON (now : Z) (iso : string) (data : gmap string value)
    (st : state) : bool * state :=
  let dataWithMetadata := with_metadata now iso data in
  let st := State (Some dataWithMetadata) (item st) in
  match push (JObj dataWithMetadata) (getAllRegistrations st) with
  | Normal allRegistrations =>
      (true, setItem (JSON_stringify allRegistrations) st)
  | Throw _ => (false, st)
  end.

(** [{...v}]: the own enumerable properties of [v].  A string or an array
    spreads into its indexed elements (a string per character of the model's
    strings), [null] and the other primitives into nothing. *)
Definition spread (v : value) : gmap string value :=
  match v with
  | JObj o => o
  | JArr l => list_to_map (imap (λ i x, (pretty i, x)) l)
  | JStr s =>
      list_to_map
        (imap (λ i c, (pretty i, JStr (String c EmptyString)))
           (String.list_ascii_of_string s))
  | _ => ∅
  end.

(** [{...reg, ...updatedData, updatedAt: new Date().toISOString()}]: the
    later source wins, which is the left-biased union with the later map on
    the left. *)
Definition merged (iso : string) (reg : value)
    (updatedData : gmap string value) : gmap string value :=
  <["updatedAt" := JStr iso]> (updatedData ∪ spread reg).

Definition updateRegistration (iso : string) (id : Q)
    (updatedData : gmap string value) (st : state) : bool * state :=
  let body : completion (bool * state) :=
    match getAllRegistrations st with
    | JArr registrations =>
        index ← JS.findIndex (has_id id) registrations;
        match index with
        | None => Normal (false, st)
        | Some index =>
            match registrations !! index with
            | Some reg =>
                let registrations :=
                  <[index := JObj (merged iso reg updatedData)]> registrations in
                Normal (true, setItem (JSON_stringify (JArr registrations)) st)
            | None => Normal (false, st)
            end
        end
    | _ => Throw TypeError
    end in
  match body with
  | Normal r => r
  | Throw _ => (false, st)
  end.

(** The callback [reg => reg.id !== id]. *)
Definition lacks_id (id : Q) (reg : value) : completion bool :=
  i ← JS.get reg "id"; Normal (negb (JS.strict_eq i (Some (JNum id)))).

Definition deleteRegistration (id : Q) (st : state) : bool * state :=
  let body : completion (bool * state) :=
    match getAllRegistrations st with
    | JArr registrations =>
        filteredRegistrations ← JS.filter (lacks_id id) registrations;
        if length registrations =? length filteredRegistrations
        then Normal (false, st)
        else Normal
               (true, setItem (JSON_stringify (JArr filteredRegistrations)) st)
    | _ => Throw TypeError
    end in
  match body with
  | Normal r => r
  | Throw _ => (false, st)
  end.

(** [confirmed] is the answer to the [confirm] dialog. *)
Definition clearAllRegistrations (confirmed : bool) (st : state)
  : bool * state :=
  if confirmed then (true, removeItem st) else (false, st).

(** One guard of [filterRegistrations]:
    [filters.k && reg.k !== filters.k].  The record is read only when the
    criterion is truthy. *)
Definition rejects (filters : gmap string value) (k : string) (reg : value)
  : completion bool :=
  if JS.truthy_opt (filters !! k)
  then v ← JS.get reg k; Normal (negb (JS.strict_eq v (filters !! k)))
  else Normal false.

Definition filter_matches (filters : gmap string value) (reg : value)
  : completion bool :=
  let matches := true in
  r ← rejects filters "type" reg;
  let matches := if r : bool then false else matches in
  r ← rejects filters "status" reg;
  let matches := if r : bool then false else matches in
  r ← rejects filters "city" reg;
  let matches := if r : bool then false else matches in
  r ← rejects filters "state" reg;
  let matches := if r : bool then false else matches in
  Normal matches.

Definition filterRegistrations (filters : gmap string value) (st : state)
  : completion (list value) :=
  match getAllRegistrations st with
  | JArr registrations => JS.filter (filter_matches filters) registrations
  | _ => Throw TypeError
  end.

(** ** Strings: conversion, trimming, the postal code pattern *)

Module Str.

Definition LF : string := String "010"%char EmptyString.
Definition comma : string := ",".

(** Digits of the fraction [r / d] ([0 <= r < d]), as long as it is not
    exhausted. *)
Fixpoint fraction_digits (fuel : nat) (r d : Z) : string :=
  match fuel with
  | O => JS.empty
  | S fuel =>
      if (r =? 0)%Z then JS.empty
      else pretty (10 * r / d)%Z +:+ fraction_digits fuel (10 * r mod d)%Z d
  end.

(** [Number.prototype.toString]: an integer prints as its decimal digits
    (as JavaScript prints the integers below 10^21); another number as
    integer part, point and fraction digits. *)
Definition Number_toString (q : Q) : string :=
  let n := Qnum q in
  let d := Z.pos (Qden q) in
  if (n mod d =? 0)%Z then pretty (n / d)%Z
  else
    (if (n <? 0)%Z then "-" else JS.empty)
      +:+ pretty (Z.abs n / d)%Z +:+ "."
      +:+ fraction_digits 20 (Z.abs n mod d)%Z d.

(** [Array.prototype.join]: the elements' strings with the separator in
    between. *)
Definition join (sep : string) (l : list string) : string :=
  String.concat sep l.

(** ToString of a value (template literals, [RegExp.prototype.test], and
    the [toString()] method of a truthy value).  An array joins its
    elements with commas, [null] elements printing as nothing; an object
    prints as [[object Object]] unless it has a property [toString] of its
    own, which as JSON data is not callable. *)
Fixpoint ToString (v : value) : completion string :=
  match v with
  | JNull => Normal "null"
  | JBool b => Normal (if b then "true" else "false")
  | JNum q => Normal (Number_toString q)
  | JStr s => Normal s
  | JArr l =>
      parts ← mapM (λ x, match x with
                         | JNull => Normal JS.empty
                         | _ => ToString x
                         end) l;
      Normal (join comma parts)
  | JObj o =>
      match o !! "toString" with
      | Some _ => Throw TypeError
      | None => Normal "[object Object]"
      end
  end.

Definition ToString_opt (v : option value) : completion string :=
  match v with
  | Some v => ToString v
  | None => Normal "undefined"
  end.

(** White space and line terminators of ECMAScript, as UTF-8 byte
    sequences. *)
Definition white_space : list (list ascii) :=
  [ ["009"]; ["010"]; ["011"]; ["012"]; ["013"]; ["032"];
    ["194"; "160"]; ["225"; "154"; "128"];
    ["226"; "128"; "128"]; ["226"; "128"; "129"]; ["226"; "128"; "130"];
    ["226"; "128"; "131"]; ["226"; "128"; "132"]; ["226"; "128"; "133"];
    ["226"; "128"; "134"]; ["226"; "128"; "135"]; ["226"; "128"; "136"];
    ["226"; "128"; "137"]; ["226"; "128"; "138"];
    ["226"; "128"; "168"]; ["226"; "128"; "169"]; ["226"; "128"; "175"];
    ["226"; "129"; "159"]; ["227"; "128"; "128"];
    ["239"; "187"; "191"] ]%char.

Fixpoint drop_prefix (p s : list ascii) : option (list ascii) :=
  match p, s with
  | [], _ => Some s
  | a :: p', b :: s' => if Ascii.eqb a b then drop_prefix p' s' else None
  | _ :: _, [] => None
  end.

Fixpoint drop_first (ws : list (list ascii)) (s : list ascii)
  : option (list ascii) :=
  match ws with
  | [] => None
  | w :: ws' =>
      match drop_prefix w s with
      | Some rest => Some rest
      | None => drop_first ws' s
      end
  end.

Fixpoint trim_left (fuel : nat) (ws : list (list ascii)) (s : list ascii)
  : list ascii :=
  match fuel with
  | O => s
  | S fuel =>
      match drop_first ws s with
      | Some rest => trim_left fuel ws rest
      | None => s
      end
  end.

(** [String.prototype.trim] *)
Definition trim (s : string) : string :=
  let l := String.list_ascii_of_string s in
  let l := trim_left (length l) white_space l in
  let r := trim_left (length l) (List.map (@rev ascii) white_space) (rev l) in
  String.string_of_list_ascii (rev r).

Definition is_digit (c : ascii) : bool :=
  let n := Ascii.nat_of_ascii c in (48 <=? n) && (n <=? 57).

(** [/^\d{6}$/.test(v)] *)
Definition six_digits (v : option value) : completion bool :=
  s ← ToString_opt v;
  let l := String.list_ascii_of_string s in
  Normal ((length l =? 6) && forallb is_digit l).

(** [s.split(sep)] for a one-character separator. *)
Fixpoint split (sep : ascii) (s : string) : list string :=
  match s with
  | EmptyString => [EmptyString]
  | String a s' =>
      if Ascii.eqb a sep then EmptyString :: split sep s'
      else
        match split sep s' with
        | h :: t => String a h :: t
        | [] => [String a EmptyString]
        end
  end.

Definition lines (s : string) : list string := split "010"%char s.


End Str.

(** ** Sums of numbers *)

Module Double.

(** [floor (log2 (n / d))] for positive [n] and [d]. *)
Definition exponent (n d : Z) : Z :=
  let e := (Z.log2 n - Z.log2 d)%Z in
  if (d * 2 ^ Z.max e 0 <=? n * 2 ^ Z.max (- e) 0)%Z then e else (e - 1)%Z.

(** [n / d] ([0 <= n], [0 < d]) rounded to the nearest integer, a tie going
    to the even one. *)
Definition nearest_even (n d : Z) : Z :=
  let q := (n / d)%Z in
  match (2 * (n mod d) ?= d)%Z with
  | Lt => q
  | Gt => (q + 1)%Z
  | Eq => if Z.even q then q else (q + 1)%Z
  end.

(** The binary64 number nearest to [q], ties to even: 53 significant bits,
    least exponent -1022.  (The numbers of this program are far below the
    largest double, past which the result would be [Infinity].) *)
Definition round (q : Q) : Q :=
  let n := Z.abs (Qnum q) in
  let d := Z.pos (Qden q) in
  if (n =? 0)%Z then 0
  else
    let k := (Z.max (exponent n d) (-1022) - 52)%Z in
    let m := nearest_even (n * 2 ^ Z.max (- k) 0) (d * 2 ^ Z.max k 0) in
    let r := Qred ((m * 2 ^ Z.max k 0) # Z.to_pos (2 ^ Z.max (- k) 0)) in
    if (Qnum q <? 0)%Z then (- r)%Q else r.

(** [a + b] on numbers. *)
Definition add (a b : Q) : Q := round (a + b).

End Double.

(** ** Export, validation, import *)

(** [v.length]: the number of elements of an array, the length of a string,
    the property of that name of an object. *)
Definition js_length (v : value) : completion (option value) :=
  match v with
  | JNull => Throw TypeError
  | JArr l => Normal (Some (JNum (inject_Z (Z.of_nat (length l)))))
  | JStr s => Normal (Some (JNum (inject_Z (Z.of_nat (String.length s)))))
  | JObj o => Normal (o !! "length")
  | _ => Normal None
  end.

Definition is_zero (v : option value) : bool :=
  JS.strict_eq v (Some (JNum 0)).

Definition csv_headers : list string :=
  ["ID"; "Name"; "Email"; "City"; "State"; "Postal Code";
   "Type"; "Status"; "Gender"; "DOB"; "Submitted At"].

(** [a || b] *)
Definition or_else (a : option value) (b : value) : option value :=
  if JS.truthy_opt a then a else Some b.

(** The cells of one record, before quoting. *)
Definition csv_cells (reg : value) : completion (list (option value)) :=
  id ← JS.get reg "id";
  name ← JS.get reg "name";
  email ← JS.get reg "email";
  city ← JS.get reg "city";
  state ← JS.get reg "state";
  postalCode ← JS.get reg "postalCode";
  type ← JS.get reg "type";
  status ← JS.get reg "status";
  gender ← JS.get reg "gender";
  dob ← JS.get reg "dob";
  submittedAt ← JS.get reg "submittedAt";
  Normal [id; name; or_else email (JStr JS.empty); city; state; postalCode;
          type; status; gender; dob; submittedAt].

(** The template literal that wraps a cell in double quotes. *)
Definition quoted (cell : option value) : completion string :=
  s ← Str.ToString_opt cell; Normal (JS.dquote +:+ s +:+ JS.dquote).

Definition csv_line (row : list (option value)) : completion string :=
  cells ← mapM quoted row; Normal (Str.join Str.comma cells).

Definition exportToCSV (st : state) : completion string :=
  let registrations := getAllRegistrations st in
  len ← js_length registrations;
  if is_zero len then Normal JS.empty
  else
    match registrations with
    | JArr registrations =>
        rows ← mapM csv_cells registrations;
        lines ← mapM csv_line rows;
        Normal (Str.join Str.LF (Str.join Str.comma csv_headers :: lines))
    | _ => Throw TypeError
    end.

Record validation := Validation {
  valid : bool;
  errors : list string
}.

Definition requiredFields : list string :=
  ["name"; "address1"; "city"; "state"; "postalCode"; "dob"; "gender";
   "status"; "onboardingDate"; "type"].

(** [!data[field] || data[field].toString().trim() === ''] *)
Definition is_blank (v : option value) : completion bool :=
  if negb (JS.truthy_opt v) then Normal true
  else s ← Str.ToString_opt v; Normal (String.eqb (Str.trim s) JS.empty).

(** [requiredFields.forEach(field => ...)], threading the [errors] array. *)
Fixpoint check_required (data : gmap string value) (fields : list string)
    (errors : list string) : completion (list string) :=
  match fields with
  | [] => Normal errors
  | field :: fields =>
      b ← is_blank (data !! field);
      check_required data fields
        (if b : bool then errors ++ [field +:+ " is required"] else errors)
  end.

(** [!data.k || data.k.length === 0] *)
Definition nothing_selected (v : option value) : completion bool :=
  match v with
  | Some x =>
      if negb (JS.truthy x) then Normal true
      else len ← js_length x; Normal (is_zero len)
  | None => Normal true
  end.

Definition check_multi (data : gmap string value) (k : string)
    (message : string) (errors : list string) : completion (list string) :=
  b ← nothing_selected (data !! k);
  Normal (if b : bool then errors ++ [message] else errors).

(** [data.postalCode && !/^\d{6}$/.test(data.postalCode)] *)
Definition check_postal (data : gmap string value) (errors : list string)
  : completion (list string) :=
  if JS.truthy_opt (data !! "postalCode") then
    ok ← Str.six_digits (data !! "postalCode");
    Normal (if ok : bool then errors
            else errors ++ ["Postal code must be 6 digits"])
  else Normal errors.

Definition validateData (data : gmap string value) : completion validation :=
  let errors := [] in
  errors ← check_required data requiredFields errors;
  errors ← check_multi data "cityMulti"
             "At least one city must be selected" errors;
  errors ← check_multi data "pinCode"
             "At least one pin code must be selected" errors;
  errors ← check_multi data "areaMulti"
             "At least one area must be selected" errors;
  errors ← check_multi data "languages"
             "At least one language must be selected" errors;
  errors ← check_postal data errors;
  Normal (Validation (length errors =? 0) errors).

(** What the environment returns while one record is imported:
    [Date.now()], [Math.random()] and [new Date().toISOString()]. *)
Record reading := Reading {
  now : Z;
  random : Q;
  iso : string
}.

(** [{...reg, id: Date.now() + Math.random(), importedAt: ...}] *)
Definition imported (r : reading) (reg : value) : value :=
  JObj (<["importedAt" := JStr (iso r)]>
          (<["id" := JNum (Double.add (inject_Z (now r)) (random r))]>
             (spread reg))).

(** [...v] inside an array literal: the elements of an array, the
    characters of a string; nothing else that JSON.parse returns is
    iterable. *)
Definition iterate (v : value) : completion (list value) :=
  match v with
  | JArr l => Normal l
  | JStr s =>
      Normal (List.map (λ c, JStr (String c EmptyString))
                (String.list_ascii_of_string s))
  | _ => Throw TypeError
  end.

(** The records a parsed file offers: a bare array, or the [registrations]
    array of an object. *)
Definition registrationsToImport (data : value) : completion (list value) :=
  match data with
  | JArr l => Normal l
  | _ =>
      r ← JS.get data "registrations";
      match r with
      | Some (JArr l) => Normal l
      | _ => Throw FormatError
      end
  end.

(** [clock k] is what the environment returns while the [k]-th record of the
    file is processed; [file] is the text of the file. *)
Definition importFromJSON (clock : nat → reading) (file : text) (st : state)
  : bool * state :=
  let body : completion (bool * state) :=
    data ← JSON_parse file;
    toImport ← registrationsToImport data;
    existing ← iterate (getAllRegistrations st);
    let merged := existing ++ imap (λ k reg, imported (clock k) reg) toImport in
    Normal (true, setItem (JSON_stringify (JArr merged)) st) in
  match body with
  | Normal r => r
  | Throw _ => (false, st)
  end.

(** ** File names and downloads *)

Module FileName.

(** [s.replace(/\s+/g, '_')] on the bytes of [s]: each maximal run of white
    space becomes one underscore.  [in_run] tells that the previous
    character was white space. *)
Fixpoint collapse (fuel : nat) (in_run : bool) (s : list ascii) : list ascii :=
  match fuel, s with
  | S fuel, c :: rest =>
      match Str.drop_first Str.white_space s with
      | Some rest' =>
          (if in_run then [] else ["_"%char]) ++ collapse fuel true rest'
      | None => c :: collapse fuel false rest
      end
  | _, _ => s
  end.

(** The class [[a-zA-Z0-9_]]. *)
Definition word_char (c : ascii) : bool :=
  let n := Ascii.nat_of_ascii c in
  ((48 <=? n) && (n <=? 57)) || ((65 <=? n) && (n <=? 90))
  || ((97 <=? n) && (n <=? 122)) || (n =? 95).

(** [name.replace(/\s+/g, '_').replace(/[^a-zA-Z0-9_]/g, '')] *)
Definition sanitize (name : string) : string :=
  let l := String.list_ascii_of_string name in
  String.string_of_list_ascii
    (List.filter word_char (collapse (length l) false l)).

End FileName.

(** [generateFileName(name)]: only a string has a [replace] method. *)
Definition generateFileName (now : Z) (name : option value)
  : completion string :=
  match name with
  | Some (JStr name) =>
      let sanitizedName := FileName.sanitize name in
      let timestamp := Str.Number_toString (inject_Z now) in
      Normal ("registration_" +:+ sanitizedName +:+ "_" +:+ timestamp
              +:+ ".json")
  | _ => Throw TypeError
  end.

(** What a download hands to the browser: the content (a JSON text, or the
    CSV string), the file name and the type of the blob. *)
Inductive content :=
  | Json (t : text)
  | Plain (s : string).

Record download := Download {
  file_content : content;
  file_name : string;
  blob_type : string
}.

Definition downloadFile (c : content) (filename : string) : download :=
  Download c filename "application/json".

(** [exportData] of [downloadAllRegistrations]; a [totalUsers] that is
    [undefined] is left out by [JSON.stringify]. *)
Definition exportData (iso : string) (totalUsers : option value)
    (allRegistrations : value) : value :=
  let metadata : gmap string value :=
    <["version" := JStr "1.0"]> (<["exportDate" := JStr iso]> ∅) in
  let metadata :=
    match totalUsers with
    | Some n => <["totalUsers" := n]> metadata
    | None => metadata
    end in
  JObj (<["registrations" := allRegistrations]>
          (<["metadata" := JObj metadata]> ∅)).

(** The UTF-16 code units of a string given by its UTF-8 bytes: one per
    character, two for a character outside the basic plane (four bytes). *)
Definition code_units (s : string) : nat :=
  list_sum
    (List.map
       (λ c, let n := Ascii.nat_of_ascii c in
             if n <? 128 then 1
             else if n <? 192 then 0
             else if n <? 240 then 1 else 2)
       (String.list_ascii_of_string s)).

(** [allRegistrations.length], where the number itself is used. *)
Definition length_of (v : value) : completion (option value) :=
  match v with
  | JStr s => Normal (Some (JNum (inject_Z (Z.of_nat (code_units s)))))
  | _ => js_length v
  end.

Definition downloadAllRegistrations (iso : string) (now : Z) (st : state)
  : completion (bool * option download) :=
  let allRegistrations := getAllRegistrations st in
  len ← length_of allRegistrations;
  if is_zero len then Normal (false, None)
  else
    let jsonString := JSON_stringify (exportData iso len allRegistrations) in
    Normal
      (true,
       Some (downloadFile (Json jsonString)
               ("all_registrations_" +:+ Str.Number_toString (inject_Z now)
                +:+ ".json"))).

Definition downloadCurrentData (now : Z) (st : state)
  : bool * option download :=
  match currentData st with
  | None => (false, None)
  | Some data =>
      let jsonString := JSON_stringify (JObj data) in
      match generateFileName now (data !! "name") with
      | Normal filename =>
          (true, Some (downloadFile (Json jsonString) filename))
      | Throw _ => (false, None)
      end
  end.

Definition downloadCSV (now : Z) (st : state) : completion (option download) :=
  csv ← exportToCSV st;
  if String.eqb csv JS.empty then Normal None
  else
    Normal
      (Some (downloadFile (Plain csv)
               ("registrations_" +:+ Str.Number_toString (inject_Z now)
                +:+ ".csv"))).

(** ** Statistics *)

(** The callback [r => r.k === s]. *)
Definition field_is (k s : string) (r : value) : completion bool :=
  v ← JS.get r k; Normal (JS.strict_eq v (Some (JStr s))).

(** [registrations.filter(r => r.k === s).length] *)
Definition count_where (k s : string) (registrations : list value)
  : completion nat :=
  r ← JS.filter (field_is k s) registrations; Normal (length r).

(** [v + 1]: a number is incremented ([null], [false] and [true] count as 0,
    0 and 1); anything else is converted to a string and gets ["1"]
    appended. *)
Definition plus_one (v : value) : completion value :=
  match v with
  | JNum q => Normal (JNum (q + 1))
  | JNull => Normal (JNum 1)
  | JBool b => Normal (JNum (if b then 2 else 1))
  | _ => s ← Str.ToString v; Normal (JStr (s +:+ "1"))
  end.

(** What an array, a string, a number or a boolean offers under a name of
    the caller's choice -- its length, its elements, the methods of its
    prototype -- in the environment at hand. *)
Class Primitives := primitive : value → string → option value.

Section Statistics.
Context `{environment : Primitives}.

(** [reg[field]] for a field name of the caller's choice.  A record offers
    its own property of that name or else what [Object.prototype] offers
    under it: [inherited k] is what [Object.prototype] offers under the name
    [k] in the environment at hand (a function being given as the string it
    converts to).  Reading from [null] throws; an array, a string, a number
    or a boolean offers what the environment says. *)
Definition field_of (inherited : string → option value) (reg : value)
    (field : string) : completion (option value) :=
  match reg with
  | JNull => Throw TypeError
  | JObj o =>
      Normal (match o !! field with
              | Some v => Some v
              | None => inherited field
              end)
  | _ => Normal (primitive reg field)
  end.

(** One turn of the loop of [groupByField].  [grouped] holds the own
    properties of the object, which inherits from [Object.prototype] too.
    Assigning to [__proto__] goes to the inherited accessor, which ignores a
    number or a string. *)
Definition group_step (inherited : string → option value) (field : string)
    (grouped : gmap string value) (reg : value)
  : completion (gmap string value) :=
  value ← field_of inherited reg field;
  if JS.truthy_opt value then
    key ← Str.ToString_opt value;
    let current :=
      match grouped !! key with
      | Some v => Some v
      | None => inherited key
      end in
    let base :=
      match current with
      | Some v => if JS.truthy v then v else JNum 0
      | None => JNum 0
      end in
    sum ← plus_one base;
    Normal (if String.eqb key "__proto__" && bool_decide (is_Some (inherited key))
            then grouped
            else <[key := sum]> grouped)
  else Normal grouped.

Fixpoint group_loop (inherited : string → option value) (field : string)
    (grouped : gmap string value) (registrations : list value)
  : completion (gmap string value) :=
  match registrations with
  | [] => Normal grouped
  | reg :: registrations =>
      grouped ← group_step inherited field grouped reg;
      group_loop inherited field grouped registrations
  end.

Definition groupByField (inherited : string → option value)
    (registrations : list value) (field : string)
  : completion (gmap string value) :=
  group_loop inherited field ∅ registrations.

Record byType := ByType { individual : nat; agency : nat; subAgency : nat }.
Record byStatus := ByStatus { active : nat; inactive : nat; suspended : nat }.

Record statistics := Statistics {
  total : nat;
  by_type : byType;
  by_status : byStatus;
  byCities : gmap string value;
  byStates : gmap string value
}.

Definition getStatistics (inherited : string → option value) (st : state)
  : completion statistics :=
  match getAllRegistrations st with
  | JArr registrations =>
      individual ← count_where "type" "Individual" registrations;
      agency ← count_where "type" "Agency" registrations;
      subAgency ← count_where "type" "Sub Agency" registrations;
      active ← count_where "status" "Active" registrations;
      inactive ← count_where "status" "Inactive" registrations;
      suspended ← count_where "status" "Suspended" registrations;
      byCities ← groupByField inherited registrations "city";
      byStates ← groupByField inherited registrations "state";
      Normal (Statistics (length registrations)
                (ByType individual agency subAgency)
                (ByStatus active inactive suspended)
                byCities byStates)
  | _ => Throw TypeError
  end.

End Statistics.

(** ** Search and date range *)

(** [s.includes(t)] *)
Fixpoint includes (s t : string) : bool :=
  String.prefix t s
  || match s with
     | EmptyString => false
     | String _ s' => includes s' t
     end.

(** [reg.k.toLowerCase().includes(term)]: only a string has a
    [toLowerCase] method.  [toLowerCase] is the method of the environment. *)
Definition lower_includes (toLowerCase : string → string) (reg : value)
    (k term : string) : completion bool :=
  v ← JS.get reg k;
  match v with
  | Some (JStr s) => Normal (includes (toLowerCase s) term)
  | _ => Throw TypeError
  end.

Definition search_matches (toLowerCase : string → string) (term : string)
    (reg : value) : completion bool :=
  b ← lower_includes toLowerCase reg "name" term;
  if b : bool then Normal true else
  b ← lower_includes toLowerCase reg "city" term;
  if b : bool then Normal true else
  b ← lower_includes toLowerCase reg "state" term;
  if b : bool then Normal true else
  b ← lower_includes toLowerCase reg "status" term;
  if b : bool then Normal true else
  lower_includes toLowerCase reg "type" term.

Definition searchRegistrations (toLowerCase : string → string)
    (searchTerm : string) (st : state) : completion (list value) :=
  let registrations := getAllRegistrations st in
  let term := toLowerCase searchTerm in
  match registrations with
  | JArr registrations =>
      JS.filter (search_matches toLowerCase term) registrations
  | _ => Throw TypeError
  end.

(** TimeClip: the time value of a number, [None] for an invalid date. *)
Definition time_clip (q : Q) : option Z :=
  if Qle_bool (inject_Z (-8640000000000000)) q
     && Qle_bool q (inject_Z 8640000000000000)
  then Some (Z.quot (Qnum q) (Z.pos (Qden q)))
  else None.

(** The time value of [new Date(v)], [None] for an invalid date.
    [Date_parse] is the parser of date strings of the environment. *)
Definition Date_value (Date_parse : string → option Z) (v : option value)
  : completion (option Z) :=
  match v with
  | None => Normal None
  | Some JNull => Normal (Some 0%Z)
  | Some (JBool b) => Normal (Some (if b then 1 else 0)%Z)
  | Some (JNum q) => Normal (time_clip q)
  | Some (JStr s) => Normal (Date_parse s)
  | Some v => s ← Str.ToString v; Normal (Date_parse s)
  end.

(** [regDate >= start && regDate <= end]: false when a date is invalid. *)
Definition in_range (regDate start end_ : option Z) : bool :=
  match regDate, start, end_ with
  | Some r, Some s, Some e => (s <=? r)%Z && (r <=? e)%Z
  | _, _, _ => false
  end.

Definition getRegistrationsByDateRange (Date_parse : string → option Z)
    (startDate endDate : string) (st : state) : completion (list value) :=
  let registrations := getAllRegistrations st in
  let start := Date_parse startDate in
  let end_ := Date_parse endDate in
  match registrations with
  | JArr registrations =>
      JS.filter
        (λ reg,
           submittedAt ← JS.get reg "submittedAt";
           regDate ← Date_value Date_parse submittedAt;
           Normal (in_range regDate start end_))
        registrations
  | _ => Throw TypeError
  end.

(** ** Views of the store used in the statements *)

(** The number of elements of the stored array. *)
Definition stored_length (st : state) : option nat :=
  match getAllRegistrations st with
  | JArr l => Some (length l)
  | _ => None
  end.

(** [o.id === id] on a record. *)
Definition record_has_id (id : Q) (o : gmap string value) : bool :=
  JS.strict_eq (o !! "id") (Some (JNum id)).

(** The [submittedAt] stamps of the stored records, in order. *)
Definition submittedAt_of (v : value) : option value :=
  match v with
  | JObj o => o !! "submittedAt"
  | _ => None
  end.

Definition stamps (st : state) : list (option value) :=
  match getAllRegistrations st with
  | JArr l => submittedAt_of <$> l
  | _ => []
  end.

(** A parsed file offers the records [l]: it is the bare array [l], or an
    object whose [registrations] field is the array [l]. *)
Definition offers (data : value) (l : list value) : Prop :=
  data = JArr l ∨ ∃ o, data = JObj o ∧ o !! "registrations" = Some (JArr l).

(** A test that returned [true]. *)
Definition holds (c : completion bool) : bool :=
  match c with
  | Normal b => b
  | Throw _ => false
  end.

Definition multiFields : list (string * string) :=
  [("cityMulti", "At least one city must be selected");
   ("pinCode", "At least one pin code must be selected");
   ("areaMulti", "At least one area must be selected");
   ("languages", "At least one language must be selected")].



Definition postal_malformed (data : gmap string value) : bool :=
  JS.truthy_opt (data !! "postalCode")
  && holds (negb <$> Str.six_digits (data !! "postalCode")).


(** The strings of the cells of one record, before quoting. *)
Definition rendered (reg : value) : completion (list string) :=
  cells ← csv_cells reg; mapM Str.ToString_opt cells.

(** A string between double quotes. *)
Definition quote (s : string) : string := JS.dquote +:+ s +:+ JS.dquote.



Definition csv_header_line : string :=
  "ID,Name,Email,City,State,Postal Code,Type,Status,Gender,DOB,Submitted At".

(** The keys [filterRegistrations] looks at, and what it asks of a record:
    for each key whose criterion is truthy, the record's field is strictly
    equal to the criterion. *)
Definition filterKeys : list string := ["type"; "status"; "city"; "state"].

Definition criterion_met (filters o : gmap string value) (k : string) : bool :=
  if JS.truthy_opt (filters !! k)
  then JS.strict_eq (o !! k) (filters !! k)
  else true.

Definition passes (filters o : gmap string value) : bool :=
  forallb (criterion_met filters o) filterKeys.

(** A value that is not an array or an object, or no value at all. *)
Definition flat (v : option value) : bool :=
  match v with
  | Some (JArr _) | Some (JObj _) => false
  | _ => true
  end.

Definition exported : list string :=
  ["id"; "name"; "email"; "city"; "state"; "postalCode"; "type"; "status";
   "gender"; "dob"; "submittedAt"].

(** ** Sample data *)

Module Sample.

Definition obj (l : list (string * value)) : gmap string value :=
  list_to_map l.

Definition empty_store : state := State None None.

Definition alice : gmap string value :=
  obj [("name", JStr "Alice"); ("city", JStr "Mysuru"); ("state", JStr "KA");
       ("type", JStr "Agency"); ("status", JStr "Active")].
Definition bob : gmap string value :=
  obj [("name", JStr "Bob"); ("city", JStr "Pune"); ("state", JStr "MH");
       ("type", JStr "Individual"); ("status", JStr "Active")].

Definition t0 : Z := 1704067200000.
Definition iso0 : string := "2024-01-01T00:00:00.000Z".
Definition iso1 : string := "2024-01-01T00:00:00.000Z".
Definition iso2 : string := "2024-03-05T10:20:30.000Z".

(** One record saved into an empty store, and a second one saved within
    the same millisecond. *)
Definition alice_saved : state := (saveToJSON t0 iso0 alice empty_store).2.
Definition both_saved : state := (saveToJSON t0 iso1 bob alice_saved).2.

Definition new_city : gmap string value := obj [("city", JStr "Hubli")].
Definition backdated : gmap string value :=
  obj [("submittedAt", JStr "1999-12-31T23:59:59.000Z")].

(** A store whose item was written by some other program. *)
Definition foreign_store : state :=
  State None (Some (Encodes (JObj (obj [("theme", JStr "dark")])))).
Definition unparsable_store : state := State None (Some Malformed).

(** A file with one record under [registrations], and the clock while it is
    read. *)
Definition bundle : text :=
  Encodes (JObj (obj [("registrations", JArr [JObj (obj [("name", JStr "Carol")])])])).
Definition clock (k : nat) : reading :=
  Reading (t0 + 5000 + Z.of_nat k) (1 # 4) iso2.

(** A form with a name and a short postal code, nothing else. *)
Definition short_postal : gmap string value :=
  obj [("name", JStr "Dev"); ("postalCode", JStr "5600")].

(** A record whose name spans two lines, alone in the store. *)
Definition two_line_name : gmap string value :=
  obj [("id", JNum 1); ("name", JStr ("Ann" +:+ Str.LF +:+ "Lee"))].

(** Criteria: agencies of one state; and a type left empty. *)
Definition agencies_in_KA : gmap string value :=
  obj [("type", JStr "Agency"); ("state", JStr "KA")].
Definition any_type : gmap string value := obj [("type", JStr JS.empty)].

(** The strings of the cells of [alice] once saved. *)
Definition alice_cells : list string :=
  ["1704067200000"; "Alice"; JS.empty; "Mysuru"; "KA"; "undefined"; "Agency";
   "Active"; "undefined"; "undefined"; iso0].

End Sample.

(** ** Views used in the statements about the rest of the class *)

(** The number of records whose field is the string [c]. *)
Definition occurrences (field c : string) (recs : list (gmap string value))
  : nat :=
  length (List.filter (λ o, JS.strict_eq (o !! field) (Some (JStr c))) recs).

(** A count as [groupByField] keeps it: no property for zero. *)
Definition tally (n : nat) : option value :=
  match n with
  | O => None
  | S _ => Some (JNum (inject_Z (Z.of_nat n)))
  end.

(** The field of the record is absent, from the record and from
    [Object.prototype], or it is a string that names nothing in
    [Object.prototype]. *)
Definition plain (inherited : string → option value) (field : string)
    (o : gmap string value) : Prop :=
  (o !! field = None ∧ inherited field = None)
  ∨ ∃ c, o !! field = Some (JStr c) ∧ inherited c = None.



(** The time value of the [submittedAt] of a record, [None] when there is
    none or it is not a valid date. *)
Definition stamp_time (Date_parse : string → option Z)
    (o : gmap string value) : option Z :=
  match Date_value Date_parse (o !! "submittedAt") with
  | Normal t => t
  | Throw _ => None
  end.

(** ** Sample environments and data for the rest of the class *)

Module Fixture.

(** [toLowerCase] on the ASCII letters. *)
Definition lower_char (c : ascii) : ascii :=
  let n := Ascii.nat_of_ascii c in
  if (65 <=? n) && (n <=? 90) then Ascii.ascii_of_nat (n + 32) else c.

Fixpoint lower (s : string) : string :=
  match s with
  | EmptyString => EmptyString
  | String c s' => String (lower_char c) (lower s')
  end.

(** A date parser that knows the dates of the samples. *)
Definition parse (s : string) : option Z :=
  if String.eqb s "2024-01-01T00:00:00.000Z" then Some 1704067200000%Z
  else if String.eqb s "2024-02-01" then Some 1706745600000%Z
  else if String.eqb s "2024-03-05T10:20:30.000Z" then Some 1709634030000%Z
  else if String.eqb s "2024-12-31" then Some 1735603200000%Z
  else None.

(** What [Object.prototype] offers in a browser. *)
Definition prototype (k : string) : option value :=
  if String.eqb k "__proto__" then Some (JObj ∅)
  else if String.eqb k "constructor"
  then Some (JStr "function Object() { [native code] }")
  else if existsb (String.eqb k)
            ["toString"; "toLocaleString"; "valueOf"; "hasOwnProperty";
             "isPrototypeOf"; "propertyIsEnumerable"]
  then Some (JStr ("function " +:+ k +:+ "() { [native code] }"))
  else None.

(** What arrays and strings offer in a sample environment: their length,
    and under any other name what [Object.prototype] offers. *)
#[global] Instance sample_primitives : Primitives := λ v k,
  match v, length_of v with
  | (JArr _ | JStr _), Normal (Some n) =>
      if String.eqb k "length" then Some n else prototype k
  | _, _ => prototype k
  end.

(** Records that hold a property named as one of [Object.prototype]. *)
Definition built : gmap string value :=
  Sample.obj [("name", JStr "Ed"); ("constructor", JStr "Acme")].
Definition unbuilt : gmap string value := Sample.obj [("name", JStr "Flo")].

(** A form with every field filled in. *)
Definition complete_form : gmap string value :=
  Sample.obj
    [("name", JStr "Asha Rao"); ("address1", JStr "12 MG Road");
     ("city", JStr "Mysuru"); ("state", JStr "KA");
     ("postalCode", JStr "570001"); ("dob", JStr "1990-04-01");
     ("gender", JStr "Female"); ("status", JStr "Active");
     ("onboardingDate", JStr "2024-01-01"); ("type", JStr "Agency");
     ("cityMulti", JArr [JStr "Mysuru"]); ("pinCode", JArr [JStr "570001"]);
     ("areaMulti", JArr [JStr "Central"]); ("languages", JArr [JStr "kn"])].

(** The clock while a file is read, with [Math.random()] returning the
    double nearest to 0.1. *)
Definition jitter (k : nat) : reading :=
  Reading (1704067200000 + Z.of_nat k)
    (3602879701896397 # 36028797018963968) Sample.iso2.


(** A store whose item is [null]. *)
Definition null_store : state := State None (Some (Encodes JNull)).

(** The store after [alice], [bob] and then a record saved two months
    later. *)
Definition carol : gmap string value :=
  Sample.obj [("name", JStr "Carol"); ("city", JStr "Mysuru");
              ("state", JStr "KA"); ("type", JStr "Trust");
              ("status", JStr "Inactive")].
Definition three_saved : state :=
  (saveToJSON 1709634030000 Sample.iso2 carol Sample.both_saved).2.

End Fixture.

(** * Properties *)

(** ** Reading the store *)

Lemma getAllRegistrations_item st1 st2 :
  item st1 = item st2 → getAllRegistrations st1 = getAllRegistrations st2.
Proof. unfold getAllRegistrations, getItem. by intros ->. Qed.

Lemma getAllRegistrations_setItem v st :
  getAllRegistrations (setItem (JSON_stringify v) st) = v.
Proof. done. Qed.

Section find_facts.
Context (p : value → completion bool).

Lemma find_Some l x :
  JS.find p l = Normal (Some x) → p x = Normal true ∧ x ∈ l.
Proof.
  induction l as [|y l IH]; simpl; [done|].
  destruct (p y) as [[]|] eqn:E; simpl; [| |done].
  - intros [= ->]. split; [done | by left].
  - intros H. destruct (IH H). split; [done | by right].
Qed.

Lemma find_None_app l l' :
  JS.find p l = Normal None → JS.find p (l ++ l') = JS.find p l'.
Proof.
  induction l as [|y l IH]; simpl; [done|].
  destruct (p y) as [[]|]; simpl; [done| |done]. apply IH.
Qed.
End find_facts.

Lemma Qeq_bool_refl q : Qeq_bool q q = true.
Proof. apply Qeq_bool_iff. reflexivity. Qed.

Lemma has_id_object id reg :
  has_id id reg = Normal true →
  ∃ o q, reg = JObj o ∧ o !! "id" = Some (JNum q) ∧ Qeq_bool q id = true.
Proof.
  destruct reg as [| | | | |o]; try done.
  unfold has_id; simpl. intros [= H].
  destruct (o !! "id") as [[| |q| | |]|] eqn:E; try done. eauto.
Qed.

Lemma has_id_truthy id reg : has_id id reg = Normal true → JS.truthy reg = true.
Proof. intros (o & q & -> & _)%has_id_object. done. Qed.

Lemma with_metadata_id now iso data :
  has_id (inject_Z now) (JObj (with_metadata now iso data)) = Normal true.
Proof.
  unfold has_id, with_metadata; simpl.
  rewrite lookup_insert_ne, lookup_insert_ne, lookup_insert_eq by done.
  simpl. by rewrite Qeq_bool_refl.
Qed.

(** A store that holds an array accepts a new record. *)
Lemma saveToJSON_array now iso data st l :
  getAllRegistrations st = JArr l →
  saveToJSON now iso data st =
    (true,
     setItem (JSON_stringify (JArr (l ++ [JObj (with_metadata now iso data)])))
       (State (Some (with_metadata now iso data)) (item st))).
Proof.
  intros H. unfold saveToJSON.
  by rewrite (getAllRegistrations_item _ st), H.
Qed.

Lemma saveToJSON_true now iso data st st' :
  saveToJSON now iso data st = (true, st') →
  ∃ l, getAllRegistrations st = JArr l ∧
       getAllRegistrations st' = JArr (l ++ [JObj (with_metadata now iso data)]).
Proof.
  unfold saveToJSON.
  rewrite (getAllRegistrations_item _ st) by done.
  destruct (getAllRegistrations st) as [| | | |l|] eqn:E; simpl; try done.
  intros [= <-]. eauto.
Qed.

(** ** Create, then read by id *)

(** Away from id collisions the round trip holds.  When the store holds no
    record with the id that the clock assigns -- reading that id beforehand
    finds nothing -- a successful [saveToJSON] followed by
    [getRegistrationById] with that id returns the input record plus [id],
    [submittedAt] and [version = "1.0"]: every other field is the input's. *)
Theorem create_then_read now iso data st st' :
  getRegistrationById (inject_Z now) st = Normal None →
  saveToJSON now iso data st = (true, st') →
  let rec := with_metadata now iso data in
    getRegistrationById (inject_Z now) st' = Normal (Some (JObj rec))
    ∧ rec !! "id" = Some (JNum (inject_Z now))
    ∧ rec !! "submittedAt" = Some (JStr iso)
    ∧ rec !! "version" = Some (JStr "1.0")
    ∧ ∀ k, k ≠ "id" → k ≠ "submittedAt" → k ≠ "version" →
           rec !! k = data !! k.
Proof.
  intros Hfresh (l & Hl & Hl')%saveToJSON_true.
  split.
  - unfold getRegistrationById in *. rewrite Hl in Hfresh. rewrite Hl'.
    destruct (JS.find (has_id (inject_Z now)) l) as [[x|]|] eqn:E;
      simpl in Hfresh; [|clear Hfresh|done].
    + apply find_Some in E as [Hx%has_id_truthy _].
      by rewrite Hx in Hfresh.
    + rewrite (find_None_app _ _ _ E). cbn [JS.find].
      by rewrite with_metadata_id.
  - unfold with_metadata. repeat split.
    + by rewrite lookup_insert_ne, lookup_insert_ne, lookup_insert_eq.
    + by rewrite lookup_insert_ne, lookup_insert_eq.
    + by rewrite lookup_insert_eq.
    + intros k ? ? ?. by rewrite !lookup_insert_ne.
Qed.

Lemma create_then_read_witness :
  getRegistrationById (inject_Z Sample.t0) Sample.empty_store = Normal None
  ∧ saveToJSON Sample.t0 Sample.iso0 Sample.alice Sample.empty_store
    = (true, Sample.alice_saved)
  ∧ getRegistrationById (inject_Z Sample.t0) Sample.alice_saved
    = Normal (Some (JObj (with_metadata Sample.t0 Sample.iso0 Sample.alice))).
Proof.
  split; [reflexivity|]. split; [reflexivity|].
  apply (create_then_read Sample.t0 Sample.iso0 Sample.alice
           Sample.empty_store Sample.alice_saved); reflexivity.
Defined.

(** C1, on the code.  The id is the clock reading alone (the source calls it
    the unique id of the registration, and the import path adds a random
    fraction to it): a second record saved within the same millisecond gets
    the id of the first, and reading that id right after the save returns
    the first record, not the one just saved plus its metadata. *)
Lemma create_then_read_same_millisecond :
  saveToJSON Sample.t0 Sample.iso1 Sample.bob Sample.alice_saved
    = (true, Sample.both_saved)
  ∧ getRegistrationById (inject_Z Sample.t0) Sample.both_saved
    = Normal (Some (JObj (with_metadata Sample.t0 Sample.iso0 Sample.alice)))
  ∧ getRegistrationById (inject_Z Sample.t0) Sample.both_saved
    ≠ Normal (Some (JObj (with_metadata Sample.t0 Sample.iso1 Sample.bob))).
Proof.
  split; [reflexivity|]. split; [reflexivity|].
  intros H.
  apply (f_equal (λ c, match c with
                       | Normal (Some (JObj o)) => o !! "name"
                       | _ => None
                       end)) in H.
  vm_compute in H. discriminate H.
Qed.

(** ** Scanning a collection of records *)

Lemma has_id_record id o : has_id id (JObj o) = Normal (record_has_id id o).
Proof. done. Qed.

Lemma lacks_id_record id o :
  lacks_id id (JObj o) = Normal (negb (record_has_id id o)).
Proof. done. Qed.

Lemma filter_records (p : value → completion bool)
    (q : gmap string value → bool) (recs : list (gmap string value)) :
  (∀ o, p (JObj o) = Normal (q o)) →
  JS.filter p (JObj <$> recs) = Normal (JObj <$> List.filter q recs).
Proof.
  intros Hp. induction recs as [|o recs IH]; [done|].
  cbn [fmap list_fmap JS.filter List.filter]. rewrite Hp. simpl.
  change (JS.filter p (JObj <$> recs) ≫= _)
    with (r ← JS.filter p (JObj <$> recs);
          Normal (if q o then JObj o :: r else r)).
  rewrite IH. simpl. by destruct (q o).
Qed.

Lemma filter_sublist (p : value → completion bool) l r :
  JS.filter p l = Normal r → r `sublist_of` l.
Proof.
  revert r. induction l as [|x l IH]; simpl; intros r.
  - by intros [= <-].
  - destruct (p x) as [b|]; simpl; [|done].
    destruct (JS.filter p l) as [r'|]; simpl; [|done].
    intros [= <-]. destruct b.
    + by apply sublist_skip, IH.
    + by apply sublist_cons, IH.
Qed.

Lemma filter_partition {A} (q : A → bool) (l : list A) :
  length (List.filter (λ x, negb (q x)) l) + length (List.filter q l)
  = length l.
Proof.
  induction l as [|x l IH]; simpl; [done|].
  destruct (q x); simpl; lia.
Qed.

Lemma filter_nil_iff {A} (q : A → bool) (l : list A) :
  List.filter q l = [] ↔ ∀ x, x ∈ l → q x = false.
Proof.
  induction l as [|x l IH]; simpl.
  - split; [|done]. intros _ x Hx. by apply elem_of_nil in Hx.
  - destruct (q x) eqn:E.
    + split; [done|]. intros H. specialize (H x (list_elem_of_here _ _)).
      congruence.
    + rewrite IH. split.
      * intros H y [->|Hy]%elem_of_cons; auto.
      * intros H y Hy. apply H. by right.
Qed.

Lemma findIndex_records id (recs : list (gmap string value)) :
  JS.findIndex (has_id id) (JObj <$> recs)
  = Normal (fst <$> list_find (λ o, record_has_id id o = true) recs).
Proof.
  induction recs as [|o recs IH]; [done|].
  cbn [fmap list_fmap JS.findIndex]. rewrite has_id_record. simpl.
  destruct (record_has_id id o) eqn:E.
  - by rewrite decide_True.
  - rewrite decide_False by congruence.
    change (JS.findIndex (has_id id) (JObj <$> recs) ≫= _)
      with (i ← JS.findIndex (has_id id) (JObj <$> recs);
            Normal (option_map S i)).
    rewrite IH. simpl.
    by destruct (list_find _ recs) as [[]|].
Qed.

Lemma findIndex_Some (p : value → completion bool) l i :
  JS.findIndex p l = Normal (Some i) →
  ∃ x, l !! i = Some x ∧ p x = Normal true.
Proof.
  revert i. induction l as [|y l IH]; simpl; intros i; [done|].
  destruct (p y) as [[]|] eqn:E; simpl; [| |done].
  - intros [= <-]. eauto.
  - destruct (JS.findIndex p l) as [[j|]|]; simpl; [|done|done].
    intros [= <-]. by apply IH.
Qed.

(** ** Delete *)

(** C2 (as amended).  On a stored collection of records,
    [deleteRegistration id] removes every record whose id is [id] and keeps
    the others in order.  If some record has the id it returns [true] and
    the length decreases by the number of records with that id, which is at
    least 1 (exactly 1 when only one record has it); if none has it, it
    returns [false] and the store is not written. *)
Theorem delete_registration id st (recs : list (gmap string value)) :
  getAllRegistrations st = JArr (JObj <$> recs) →
  let gone := List.filter (record_has_id id) recs in
  let kept := List.filter (λ o, negb (record_has_id id o)) recs in
  ((∃ o, o ∈ recs ∧ record_has_id id o = true) →
     deleteRegistration id st
     = (true, setItem (JSON_stringify (JArr (JObj <$> kept))) st)
     ∧ 1 ≤ length gone
     ∧ length kept = length recs - length gone
     ∧ (length gone = 1 → length kept = length recs - 1))
  ∧ ((∀ o, o ∈ recs → record_has_id id o = false) →
     deleteRegistration id st = (false, st)).
Proof.
  intros Hst gone kept.
  pose proof (filter_partition (record_has_id id) recs) as Hlen.
  fold gone kept in Hlen.
  assert (Hdel : deleteRegistration id st =
    if length recs =? length kept then (false, st)
    else (true, setItem (JSON_stringify (JArr (JObj <$> kept))) st)).
  { unfold deleteRegistration. rewrite Hst.
    rewrite (filter_records _ (λ o, negb (record_has_id id o)))
      by apply lacks_id_record.
    simpl. rewrite !length_fmap. fold kept.
    by destruct (length recs =? length kept). }
  split.
  - intros (o & Ho & Hid).
    assert (gone ≠ []) as Hne.
    { intros Hnil. apply filter_nil_iff with (x := o) in Hnil; [congruence|done]. }
    assert (1 ≤ length gone) by (destruct gone; simpl; [done | lia]).
    rewrite Hdel.
    destruct (Nat.eqb_spec (length recs) (length kept)); [lia|].
    repeat split; lia.
  - intros Hnone. apply filter_nil_iff in Hnone. fold gone in Hnone.
    rewrite Hnone in Hlen. simpl in Hlen.
    rewrite Hdel. destruct (Nat.eqb_spec (length recs) (length kept)); [done|lia].
Qed.

Lemma delete_registration_witness :
  getAllRegistrations Sample.alice_saved
  = JArr (JObj <$> [with_metadata Sample.t0 Sample.iso0 Sample.alice])
  ∧ deleteRegistration (inject_Z Sample.t0) Sample.alice_saved
    = (true, setItem (JSON_stringify (JArr [])) Sample.alice_saved)
  ∧ deleteRegistration (inject_Z 7) Sample.alice_saved
    = (false, Sample.alice_saved).
Proof.
  split; [reflexivity|].
  destruct (delete_registration (inject_Z Sample.t0) Sample.alice_saved
              [with_metadata Sample.t0 Sample.iso0 Sample.alice] eq_refl)
    as [Hsome _].
  destruct (delete_registration (inject_Z 7) Sample.alice_saved
              [with_metadata Sample.t0 Sample.iso0 Sample.alice] eq_refl)
    as [_ Hnone].
  split.
  - destruct Hsome as [H _]; [|exact H].
    eexists. split; [left|reflexivity].
  - apply Hnone. intros o ->%list_elem_of_singleton. reflexivity.
Defined.

(** C2 as stated fails: two records that share an id (saved within the same
    millisecond) are both removed, the length drops from 2 to 0. *)
Lemma delete_registration_shared_id :
  stored_length Sample.both_saved = Some 2
  ∧ (deleteRegistration (inject_Z Sample.t0) Sample.both_saved).1 = true
  ∧ stored_length (deleteRegistration (inject_Z Sample.t0) Sample.both_saved).2
    = Some 0
  ∧ stored_length (deleteRegistration (inject_Z Sample.t0) Sample.both_saved).2
    ≠ Some (2 - 1).
Proof. repeat split; try reflexivity. discriminate. Qed.

(** ** Update *)

Lemma merged_updatedAt iso reg updatedData :
  merged iso reg updatedData !! "updatedAt" = Some (JStr iso).
Proof. unfold merged. apply lookup_insert_eq. Qed.

Lemma merged_supplied iso reg updatedData k v :
  k ≠ "updatedAt" → updatedData !! k = Some v →
  merged iso reg updatedData !! k = Some v.
Proof.
  intros Hk Hv. unfold merged. rewrite lookup_insert_ne by done.
  by apply lookup_union_Some_l.
Qed.

Lemma merged_other iso reg updatedData k :
  k ≠ "updatedAt" → updatedData !! k = None →
  merged iso reg updatedData !! k = spread reg !! k.
Proof.
  intros Hk Hv. unfold merged. rewrite lookup_insert_ne by done.
  by apply lookup_union_r.
Qed.

(** What [updateRegistration] does on any store: nothing, or it replaces
    the first element that has the id. *)
Lemma updateRegistration_cases iso id updatedData st :
  updateRegistration iso id updatedData st = (false, st)
  ∨ ∃ l i o,
      getAllRegistrations st = JArr l ∧ l !! i = Some (JObj o)
      ∧ record_has_id id o = true
      ∧ updateRegistration iso id updatedData st
        = (true,
           setItem
             (JSON_stringify
                (JArr (<[i := JObj (merged iso (JObj o) updatedData)]> l))) st).
Proof.
  unfold updateRegistration.
  destruct (getAllRegistrations st) as [| | | |l|] eqn:Hst; auto.
  destruct (JS.findIndex (has_id id) l) as [[i|]|] eqn:Hi; simpl; auto.
  apply findIndex_Some in Hi as (x & Hx & Hp).
  pose proof Hp as (o & q & -> & _)%has_id_object.
  rewrite has_id_record in Hp. injection Hp as Hp.
  rewrite Hx. right. exists l, i, o. done.
Qed.

(** C3.  On a stored collection with a record whose id is [id] (the first
    such record, at index [i]), [updateRegistration] returns [true] and
    writes the collection back with that record replaced by the merge: its
    [updatedAt] is the current time, each field supplied in [updatedData] has
    the supplied value, every other field is as before, and every other
    record is unchanged.  If no record has the id it returns [false] and
    leaves the store as it is. *)
Theorem update_registration iso id updatedData st
    (recs : list (gmap string value)) :
  getAllRegistrations st = JArr (JObj <$> recs) →
  (∀ i rec,
     recs !! i = Some rec → record_has_id id rec = true →
     (∀ j o, j < i → recs !! j = Some o → record_has_id id o = false) →
     let new := merged iso (JObj rec) updatedData in
     updateRegistration iso id updatedData st
     = (true, setItem (JSON_stringify (JArr (JObj <$> <[i := new]> recs))) st)
     ∧ new !! "updatedAt" = Some (JStr iso)
     ∧ (∀ k v, k ≠ "updatedAt" → updatedData !! k = Some v →
               new !! k = Some v)
     ∧ (∀ k, k ≠ "updatedAt" → updatedData !! k = None →
             new !! k = rec !! k)
     ∧ length (<[i := new]> recs) = length recs
     ∧ (∀ j, j ≠ i → <[i := new]> recs !! j = recs !! j))
  ∧ ((∃ o, o ∈ recs ∧ record_has_id id o = true) →
     (updateRegistration iso id updatedData st).1 = true)
  ∧ ((∀ o, o ∈ recs → record_has_id id o = false) →
     updateRegistration iso id updatedData st = (false, st)).
Proof.
  intros Hst.
  assert (Hfirst : ∀ i rec,
    list_find (λ o, record_has_id id o = true) recs = Some (i, rec) →
    updateRegistration iso id updatedData st
    = (true,
       setItem
         (JSON_stringify
            (JArr (JObj <$> <[i := merged iso (JObj rec) updatedData]> recs)))
         st)).
  { intros i rec Hfind. unfold updateRegistration.
    rewrite Hst, findIndex_records, Hfind. simpl.
    apply list_find_Some in Hfind as (Hi & _ & _).
    rewrite list_lookup_fmap, Hi. simpl.
    by rewrite list_fmap_insert. }
  split; [|split].
  - intros i rec Hi Hid Hbefore new. split; [|repeat split].
    + apply Hfirst, list_find_Some. split; [done|]. split; [done|].
      intros j o Ho Hj. rewrite (Hbefore j o Hj Ho). done.
    + apply merged_updatedAt.
    + intros k v. apply merged_supplied.
    + intros k. apply merged_other.
    + apply length_insert.
    + intros j Hj. by apply list_lookup_insert_ne.
  - intros (o & Ho & Hid).
    destruct (list_find (λ o, record_has_id id o = true) recs)
      as [[i rec]|] eqn:Hfind.
    + by rewrite (Hfirst i rec).
    + apply list_find_None in Hfind.
      rewrite Forall_forall in Hfind. by destruct (Hfind o Ho).
  - intros Hnone. unfold updateRegistration.
    rewrite Hst, findIndex_records.
    replace (list_find _ recs) with (@None (nat * gmap string value)); [done|].
    symmetry. apply list_find_None, Forall_forall.
    intros o Ho. rewrite (Hnone o Ho). done.
Qed.

Lemma update_registration_witness :
  let saved := with_metadata Sample.t0 Sample.iso0 Sample.alice in
  let new := merged Sample.iso2 (JObj saved) Sample.new_city in
  getAllRegistrations Sample.alice_saved = JArr (JObj <$> [saved])
  ∧ updateRegistration Sample.iso2 (inject_Z Sample.t0) Sample.new_city
      Sample.alice_saved
    = (true, setItem (JSON_stringify (JArr (JObj <$> [new]))) Sample.alice_saved)
  ∧ new !! "updatedAt" = Some (JStr Sample.iso2)
  ∧ new !! "city" = Some (JStr "Hubli")
  ∧ new !! "name" = Some (JStr "Alice")
  ∧ updateRegistration Sample.iso2 (inject_Z 7) Sample.new_city
      Sample.alice_saved
    = (false, Sample.alice_saved).
Proof.
  intros saved new. split; [reflexivity|].
  destruct (update_registration Sample.iso2 (inject_Z Sample.t0)
              Sample.new_city Sample.alice_saved [saved] eq_refl)
    as (Hhit & _ & _).
  destruct (update_registration Sample.iso2 (inject_Z 7)
              Sample.new_city Sample.alice_saved [saved] eq_refl)
    as (_ & _ & Hmiss).
  destruct (Hhit 0 saved eq_refl eq_refl) as (Hupd & Hat & Hsup & Hoth & _).
  { intros j o Hj. lia. }
  split; [exact Hupd|]. split; [exact Hat|].
  split; [apply Hsup; [discriminate | reflexivity]|].
  split; [rewrite Hoth; [reflexivity | discriminate | reflexivity]|].
  apply Hmiss. intros o ->%list_elem_of_singleton. reflexivity.
Defined.

(** ** The submission stamp *)

Lemma stamps_array st l :
  getAllRegistrations st = JArr l → stamps st = submittedAt_of <$> l.
Proof. unfold stamps. by intros ->. Qed.

Lemma stamps_item st1 st2 : item st1 = item st2 → stamps st1 = stamps st2.
Proof.
  intros H. unfold stamps. by rewrite (getAllRegistrations_item st1 st2).
Qed.

Lemma stamps_updateRegistration iso id updatedData st :
  updatedData !! "submittedAt" = None →
  stamps (updateRegistration iso id updatedData st).2 = stamps st.
Proof.
  intros Hnone.
  destruct (updateRegistration_cases iso id updatedData st)
    as [->|(l & i & o & Hst & Hi & _ & ->)]; [done|].
  cbn [snd]. rewrite (stamps_array st l Hst).
  rewrite (stamps_array _ _ (getAllRegistrations_setItem _ _)).
  rewrite list_fmap_insert. apply list_insert_id.
  rewrite list_lookup_fmap, Hi. simpl. f_equal.
  symmetry. by apply merged_other.
Qed.

Lemma stamps_saveToJSON now iso data st :
  stamps st `prefix_of` stamps (saveToJSON now iso data st).2.
Proof.
  unfold saveToJSON.
  rewrite (getAllRegistrations_item _ st) by done.
  destruct (getAllRegistrations st) as [| | | |l|] eqn:Hst; simpl;
    try (by erewrite stamps_item).
  rewrite (stamps_array st l Hst).
  rewrite (stamps_array _ _ (getAllRegistrations_setItem _ _)).
  rewrite fmap_app. by apply prefix_app_r.
Qed.

Lemma stamps_deleteRegistration id st :
  stamps (deleteRegistration id st).2 `sublist_of` stamps st.
Proof.
  unfold deleteRegistration.
  destruct (getAllRegistrations st) as [| | | |l|] eqn:Hst; try done.
  destruct (JS.filter (lacks_id id) l) as [r|] eqn:Hr; simpl; [|done].
  destruct (length l =? length r); [done|]. cbn [snd].
  rewrite (stamps_array st l Hst).
  rewrite (stamps_array _ _ (getAllRegistrations_setItem _ _)).
  by apply fmap_sublist, filter_sublist with (p := lacks_id id).
Qed.

Lemma stamps_importFromJSON clock file st :
  stamps st `prefix_of` stamps (importFromJSON clock file st).2.
Proof.
  unfold importFromJSON.
  destruct (JSON_parse file) as [data|]; simpl; [|done].
  destruct (registrationsToImport data) as [toImport|]; simpl; [|done].
  destruct (getAllRegistrations st) as [| | |s|l|] eqn:Hst; simpl; try done.
  - unfold stamps at 1. rewrite Hst. apply prefix_nil.
  - rewrite (stamps_array st l Hst).
    rewrite (stamps_array _ _ (getAllRegistrations_setItem _ _)).
    rewrite fmap_app. by apply prefix_app_r.
Qed.

(** C4 (as amended).  The [submittedAt] stamps of the stored records stay as
    they are under every operation but one: [updateRegistration] leaves them
    all unchanged when [updatedData] has no [submittedAt] field (a supplied
    [submittedAt] is merged like any other field); [saveToJSON] and
    [importFromJSON] only append records after the existing ones, and
    [deleteRegistration] only removes records. *)
Theorem submittedAt_preserved st :
  (∀ iso id updatedData,
     updatedData !! "submittedAt" = None →
     stamps (updateRegistration iso id updatedData st).2 = stamps st)
  ∧ (∀ now iso data,
       stamps st `prefix_of` stamps (saveToJSON now iso data st).2)
  ∧ (∀ id, stamps (deleteRegistration id st).2 `sublist_of` stamps st)
  ∧ (∀ clock file,
       stamps st `prefix_of` stamps (importFromJSON clock file st).2).
Proof.
  split; [|split; [|split]].
  - intros. by apply stamps_updateRegistration.
  - intros. apply stamps_saveToJSON.
  - intros. apply stamps_deleteRegistration.
  - intros. apply stamps_importFromJSON.
Qed.

Lemma submittedAt_preserved_witness :
  Sample.new_city !! "submittedAt" = None
  ∧ stamps (updateRegistration Sample.iso2 (inject_Z Sample.t0)
              Sample.new_city Sample.alice_saved).2
    = [Some (JStr Sample.iso0)].
Proof.
  split; [reflexivity|].
  destruct (submittedAt_preserved Sample.alice_saved) as [H _].
  rewrite (H Sample.iso2 (inject_Z Sample.t0) Sample.new_city eq_refl).
  reflexivity.
Defined.

(** C4 as stated fails: an update whose data carries a [submittedAt] field
    overwrites the stamp set at creation. *)
Lemma submittedAt_overwritten :
  stamps Sample.alice_saved = [Some (JStr Sample.iso0)]
  ∧ stamps (updateRegistration Sample.iso2 (inject_Z Sample.t0)
              Sample.backdated Sample.alice_saved).2
    = [Some (JStr "1999-12-31T23:59:59.000Z")]
  ∧ stamps (updateRegistration Sample.iso2 (inject_Z Sample.t0)
              Sample.backdated Sample.alice_saved).2
    ≠ stamps Sample.alice_saved.
Proof. repeat split; try reflexivity. discriminate. Qed.

(** ** Reading all records *)

(** What [getAllRegistrations] returns, case by case: the empty array when
    there is no stored item, when the item is the empty string, and when the
    item fails to parse as JSON (the failure is swallowed); an item that
    parses is returned as parsed, whatever its shape. *)
Theorem read_all st :
  (item st = None → getAllRegistrations st = JArr [])
  ∧ (item st = Some Blank → getAllRegistrations st = JArr [])
  ∧ (∀ t e, item st = Some t → JSON_parse t = Throw e →
            getAllRegistrations st = JArr [])
  ∧ (∀ t v, item st = Some t → JSON_parse t = Normal v →
            getAllRegistrations st = v).
Proof.
  unfold getAllRegistrations, getItem.
  split; [|split; [|split]].
  - by intros ->.
  - by intros ->.
  - intros t e -> Ht. destruct t; simpl in *; [done|done|discriminate].
  - intros t v -> Ht. destruct t; simpl in *; [done|done|congruence].
Qed.

Lemma read_all_witness :
  getAllRegistrations Sample.empty_store = JArr []
  ∧ getAllRegistrations Sample.unparsable_store = JArr []
  ∧ getAllRegistrations Sample.alice_saved
    = JArr [JObj (with_metadata Sample.t0 Sample.iso0 Sample.alice)].
Proof.
  split; [|split].
  - destruct (read_all Sample.empty_store) as (H & _). by apply H.
  - destruct (read_all Sample.unparsable_store) as (_ & _ & H & _).
    by apply (H Malformed SyntaxError).
  - destruct (read_all Sample.alice_saved) as (_ & _ & _ & H).
    by apply (H (Encodes (JArr [JObj (with_metadata Sample.t0 Sample.iso0
                                       Sample.alice)]))).
Defined.

(** C5, on the code.  A stored item written by another program, valid JSON
    but not an array, is returned as it is: the result is an object, where
    the claim (and the documented return type, an array) has the empty
    sequence. *)
Lemma read_all_foreign :
  getAllRegistrations Sample.foreign_store
  = JObj (Sample.obj [("theme", JStr "dark")])
  ∧ getAllRegistrations Sample.foreign_store ≠ JArr [].
Proof. split; [reflexivity | discriminate]. Qed.

(** ** Import *)

Lemma registrationsToImport_offers data l :
  registrationsToImport data = Normal l ↔ offers data l.
Proof.
  unfold offers. destruct data as [| | | |l'|o]; simpl;
    try (split; [done | by intros [|(? & ? & _)]]).
  - split; [intros [= ->]; by left|].
    intros [[= ->]|(? & ? & _)]; done.
  - split.
    + destruct (o !! "registrations") as [[]|] eqn:E; try done.
      intros [= ->]. right. eauto.
    + intros [|(o' & [= <-] & ->)]; done.
Qed.

Lemma registrationsToImport_Throw data :
  (∀ l, ¬ offers data l) → ∃ e, registrationsToImport data = Throw e.
Proof.
  intros H. destruct (registrationsToImport data) as [l|e] eqn:E; [|eauto].
  apply registrationsToImport_offers in E. by destruct (H l).
Qed.

Lemma imported_fields r reg :
  ∃ o, imported r reg = JObj o
       ∧ o !! "id" = Some (JNum (Double.add (inject_Z (now r)) (random r)))
       ∧ o !! "importedAt" = Some (JStr (iso r))
       ∧ ∀ k, k ≠ "id" → k ≠ "importedAt" → o !! k = spread reg !! k.
Proof.
  eexists. split; [done|]. repeat split.
  - by rewrite lookup_insert_ne, lookup_insert_eq.
  - by rewrite lookup_insert_eq.
  - intros k ? ?. by rewrite !lookup_insert_ne.
Qed.

Lemma imported_lookup clock (existing toImport : list value) k reg :
  toImport !! k = Some reg →
  (existing ++ imap (λ k reg, imported (clock k) reg) toImport)
    !! (length existing + k)
  = Some (imported (clock k) reg).
Proof.
  intros Hk. rewrite lookup_app_r by lia.
  replace (length existing + k - length existing) with k by lia.
  by rewrite list_lookup_imap, Hk.
Qed.

(** Rounding to the nearest integer stays between two integers that bound
    the quotient. *)
Lemma nearest_even_between n d a b :
  (0 < d)%Z → (a * d ≤ n ≤ b * d)%Z →
  (a ≤ Double.nearest_even n d ≤ b)%Z.
Proof.
  intros Hd [Ha Hb]. unfold Double.nearest_even.
  pose proof (Z.div_mod n d ltac:(lia)) as Hn.
  pose proof (Z.mod_pos_bound n d Hd) as Hr.
  assert (a ≤ n / d)%Z by (apply Z.div_le_lower_bound; lia).
  assert (n / d ≤ b)%Z by (apply Z.div_le_upper_bound; lia).
  assert (0 < n mod d → n / d + 1 ≤ b)%Z by nia.
  destruct (Z.compare_spec (2 * (n mod d)) d); [|lia|lia].
  destruct (Z.even (n / d)); lia.
Qed.

(** The id of an imported record is based on the clock: the sum of a clock
    reading and a random fraction, as a double, lies between the reading and
    the next millisecond. *)
Lemma add_fraction_bounds now r :
  (0 ≤ now < 2 ^ 52)%Z → (0 <= r)%Q → (r < 1)%Q →
  (inject_Z now <= Double.add (inject_Z now) r)%Q
  ∧ (Double.add (inject_Z now) r <= inject_Z (now + 1))%Q.
Proof.
  intros [Hnow Hbig] Hr0 Hr1. destruct r as [rn rd].
  unfold Qle, Qlt in Hr0, Hr1. simpl in Hr0, Hr1.
  unfold Double.add, Double.round.
  set (q := (inject_Z now + (rn # rd))%Q).
  assert (Qnum q = now * Z.pos rd + rn)%Z as Hn by (simpl; lia).
  assert (Qden q = rd) as Hd by done.
  rewrite Hn, Hd. rewrite Z.abs_eq by nia.
  destruct (Z.eqb_spec (now * Z.pos rd + rn) 0) as [Hz|Hnz].
  { assert (now = 0)%Z as -> by nia. unfold Qle. simpl. lia. }
  destruct (Z.ltb_spec (now * Z.pos rd + rn) 0) as [|_]; [nia|].
  set (n := (now * Z.pos rd + rn)%Z) in *.
  assert (Double.exponent n (Z.pos rd) ≤ 52)%Z as He.
  { unfold Double.exponent.
    assert (Z.log2 n ≤ 52 + Z.log2 (Z.pos rd))%Z.
    { rewrite <- Z.log2_mul_pow2 by lia.
      apply Z.log2_le_mono. unfold n. nia. }
    destruct (_ <=? _)%Z; lia. }
  set (k := (Z.max (Double.exponent n (Z.pos rd)) (-1022) - 52)%Z).
  assert (k ≤ 0)%Z as Hk by lia.
  rewrite (Z.max_r k 0), (Z.max_l (- k) 0) by lia.
  rewrite Z.pow_0_r, !Z.mul_1_r.
  assert (0 < 2 ^ (- k))%Z as Hpow by (apply Z.pow_pos_nonneg; lia).
  set (p := (2 ^ (- k))%Z) in *. clearbody p. clear Hk He. clearbody k.
  assert (0 ≤ rn * p)%Z by (apply Z.mul_nonneg_nonneg; lia).
  assert (0 ≤ (Z.pos rd - rn) * p)%Z by (apply Z.mul_nonneg_nonneg; lia).
  destruct (nearest_even_between (n * p) (Z.pos rd) (now * p) ((now + 1) * p))
    as [Hlo Hhi]; [lia | unfold n; lia |].
  rewrite Qred_correct. unfold Qle. cbn [Qnum Qden inject_Z].
  rewrite Z2Pos.id by done. lia.
Qed.

(** C6.  With a stored collection [existing]: when the file parses as JSON
    into a bare array, or into an object with a [registrations] array,
    [importFromJSON] returns [true] and writes back the existing elements
    followed by one record per element of that array, in order: a record of
    the file keeps its fields, except that it gets a fresh [id] -- the clock
    reading plus a random fraction, a number between the reading and the next
    millisecond -- and an [importedAt] stamp; for any other content it
    returns [false] and leaves the store as it is. *)
Theorem import_from_JSON clock file st existing :
  getAllRegistrations st = JArr existing →
  (∀ data toImport,
     JSON_parse file = Normal data → offers data toImport →
     let merged := existing ++ imap (λ k reg, imported (clock k) reg) toImport in
     importFromJSON clock file st
     = (true, setItem (JSON_stringify (JArr merged)) st)
     ∧ length merged = length existing + length toImport
     ∧ (∀ j x, existing !! j = Some x → merged !! j = Some x)
     ∧ (∀ k rec, toImport !! k = Some (JObj rec) →
          merged !! (length existing + k)
          = Some (JObj
                    (<["importedAt" := JStr (iso (clock k))]>
                       (<["id" := JNum (Double.add (inject_Z (now (clock k)))
                                          (random (clock k)))]> rec))))
     ∧ (∀ k reg, toImport !! k = Some reg →
          ∃ o id, merged !! (length existing + k) = Some (JObj o)
               ∧ o !! "id" = Some (JNum id)
               ∧ id = Double.add (inject_Z (now (clock k))) (random (clock k))
               ∧ ((0 ≤ now (clock k) < 2 ^ 52)%Z →
                  (0 <= random (clock k))%Q → (random (clock k) < 1)%Q →
                  (inject_Z (now (clock k)) <= id)%Q
                  ∧ (id <= inject_Z (now (clock k) + 1))%Q)
               ∧ o !! "importedAt" = Some (JStr (iso (clock k)))
               ∧ ∀ f, f ≠ "id" → f ≠ "importedAt" →
                      o !! f = spread reg !! f))
  ∧ ((∀ data toImport, JSON_parse file = Normal data → ¬ offers data toImport) →
     importFromJSON clock file st = (false, st)).
Proof.
  intros Hst. split.
  - intros data toImport Hparse Hoffers merged.
    apply registrationsToImport_offers in Hoffers.
    assert (∀ k reg, toImport !! k = Some reg →
                     merged !! (length existing + k)
                     = Some (imported (clock k) reg)) as Hnew
      by (intros; by apply imported_lookup).
    split; [|split; [|split; [|split]]].
    + unfold importFromJSON. rewrite Hparse. simpl.
      rewrite Hoffers. simpl. by rewrite Hst.
    + unfold merged. by rewrite length_app, length_imap.
    + intros j x Hj. unfold merged. by apply lookup_app_l_Some.
    + intros k rec Hk. by rewrite (Hnew k _ Hk).
    + intros k reg Hk.
      destruct (imported_fields (clock k) reg) as (o & Ho & Hid & Hat & Hrest).
      exists o, (Double.add (inject_Z (now (clock k))) (random (clock k))).
      split; [by rewrite (Hnew k _ Hk), Ho|]. split; [done|].
      split; [done|]. split; [|done].
      intros. by apply add_fraction_bounds.
  - intros Hnone. unfold importFromJSON.
    destruct (JSON_parse file) as [data|] eqn:Hparse; simpl; [|done].
    destruct (registrationsToImport_Throw data) as [e ->]; [|done].
    intros l. by apply Hnone.
Qed.

Lemma import_from_JSON_witness :
  getAllRegistrations Sample.both_saved
  = JArr [JObj (with_metadata Sample.t0 Sample.iso0 Sample.alice);
          JObj (with_metadata Sample.t0 Sample.iso1 Sample.bob)]
  ∧ importFromJSON Fixture.jitter Sample.bundle Sample.both_saved
    = (true,
       setItem
         (JSON_stringify
            (JArr [JObj (with_metadata Sample.t0 Sample.iso0 Sample.alice);
                   JObj (with_metadata Sample.t0 Sample.iso1 Sample.bob);
                   JObj (Sample.obj
                           [("name", JStr "Carol");
                            ("id", JNum (3489929625600205 # 2048));
                            ("importedAt", JStr Sample.iso2)])]))
         Sample.both_saved)
  ∧ (inject_Z 1704067200000 <= 3489929625600205 # 2048)%Q
  ∧ (3489929625600205 # 2048 <= inject_Z 1704067200001)%Q
  ∧ importFromJSON Fixture.jitter Malformed Sample.both_saved
    = (false, Sample.both_saved).
Proof.
  split; [reflexivity|].
  destruct (import_from_JSON Fixture.jitter Sample.bundle Sample.both_saved
              _ eq_refl) as [Hok _].
  destruct (import_from_JSON Fixture.jitter Malformed Sample.both_saved
              _ eq_refl) as [_ Hbad].
  destruct (Hok _ [JObj (Sample.obj [("name", JStr "Carol")])] eq_refl)
    as (Himp & _ & _ & _ & Hid).
  { right. eexists. split; reflexivity. }
  destruct (Hid 0 _ eq_refl) as (o & id & _ & _ & -> & Hbounds & _).
  destruct Hbounds as [Hlo Hhi];
    [split; by vm_compute | by vm_compute | by vm_compute |].
  split; [rewrite Himp; vm_compute; reflexivity|].
  split; [exact Hlo|]. split; [exact Hhi|].
  apply Hbad. intros data toImport Hparse. discriminate Hparse.
Defined.

(** ** Validation *)

(** A field that is absent, or a string, a number, a boolean or [null], can
    always be tested for blankness. *)
Lemma is_blank_flat v : flat v = true → ∃ b, is_blank v = Normal b.
Proof.
  intros Hv. unfold is_blank.
  destruct (negb (JS.truthy_opt v)); [eauto|].
  destruct v as [[]|]; simpl; eauto; done.
Qed.

Lemma check_required_all data fields errors :
  (∀ f, f ∈ fields → ∃ b, is_blank (data !! f) = Normal b) →
  check_required data fields errors
  = Normal
      (errors ++
         List.map (λ field, field +:+ " is required")
           (List.filter (λ field, holds (is_blank (data !! field))) fields)).
Proof.
  revert errors. induction fields as [|f fields IH]; intros errors Hall.
  - simpl. by rewrite app_nil_r.
  - destruct (Hall f) as [b Hb]; [by left|].
    cbn [check_required List.filter]. rewrite Hb. simpl.
    rewrite IH by (intros g Hg; apply Hall; by right).
    destruct b; simpl; [|done]. by rewrite <- app_assoc.
Qed.

Lemma nothing_selected_Normal v : ∃ b, nothing_selected v = Normal b.
Proof.
  destruct v as [x|]; simpl; [|eauto].
  destruct x as [|b|q|s|l|o]; simpl; eauto.
  - destruct b; simpl; eauto.
  - destruct (negb (Qeq_bool q 0)); simpl; eauto.
  - destruct (negb (String.eqb s JS.empty)); simpl; eauto.
Qed.

Lemma check_multi_Normal data k message errors :
  check_multi data k message errors
  = Normal (errors ++
            if holds (nothing_selected (data !! k)) then [message] else []).
Proof.
  unfold check_multi.
  destruct (nothing_selected_Normal (data !! k)) as [b ->]. simpl.
  destruct b; [done|]. by rewrite app_nil_r.
Qed.

Lemma check_postal_Normal data errors b :
  is_blank (data !! "postalCode") = Normal b →
  check_postal data errors
  = Normal (errors ++ if postal_malformed data
                      then ["Postal code must be 6 digits"] else []).
Proof.
  unfold check_postal, postal_malformed, is_blank, Str.six_digits.
  destruct (JS.truthy_opt (data !! "postalCode")); simpl.
  - destruct (Str.ToString_opt (data !! "postalCode")) as [s|]; simpl; [|done].
    intros _. match goal with |- context [if ?c then errors else _] =>
      destruct c end; simpl; [|done]. by rewrite app_nil_r.
  - intros _. by rewrite app_nil_r.
Qed.








(** ** CSV export *)

Section mapM_facts.
Context {A B : Type} (f : A → completion B).

Lemma mapM_Normal l ys :
  mapM f l = Normal ys ↔ Forall2 (λ x y, f x = Normal y) l ys.
Proof.
  revert ys. induction l as [|x l IH]; intros ys; simpl.
  - split; [intros [= <-]; constructor | by inversion 1].
  - destruct (f x) as [y|] eqn:Hy; simpl.
    + destruct (mapM f l) as [ys'|] eqn:Hl; simpl.
      * split.
        -- intros [= <-]. constructor; [done|]. by apply IH.
        -- inversion 1 as [|? y0 ? ys0 Hy0 Hrest]; subst.
           apply IH in Hrest. unfold mret, completion_ret. congruence.
      * split; [done|].
        inversion 1 as [|? y0 ? ys0 Hy0 Hrest]; subst.
        by apply IH in Hrest.
    + split; [done|]. inversion 1; congruence.
Qed.

End mapM_facts.

Lemma mapM_quoted cells (strs : list string) :
  mapM Str.ToString_opt cells = Normal strs →
  mapM quoted cells = Normal (quote <$> strs).
Proof.
  rewrite !mapM_Normal. induction 1 as [|c s cells strs Hc _ IH]; csimpl.
  - constructor.
  - constructor; [|done]. unfold quoted. by rewrite Hc.
Qed.

Lemma mapM_quoted_inv cells (row : list string) :
  mapM quoted cells = Normal row →
  ∃ strs, mapM Str.ToString_opt cells = Normal strs ∧ row = quote <$> strs.
Proof.
  rewrite mapM_Normal. induction 1 as [|c q cells row Hc _ IH].
  - by exists [].
  - destruct IH as (strs & Hstrs & ->). unfold quoted in Hc.
    destruct (Str.ToString_opt c) as [s|] eqn:Hs; simpl in Hc; [|done].
    injection Hc as <-. exists (s :: strs). split; [|done].
    simpl. by rewrite Hs, Hstrs.
Qed.

Lemma csv_line_rendered reg (strs : list string) :
  rendered reg = Normal strs →
  ∃ cells, csv_cells reg = Normal cells
           ∧ csv_line cells = Normal (Str.join Str.comma (quote <$> strs)).
Proof.
  unfold rendered, csv_line.
  destruct (csv_cells reg) as [cells|]; simpl; [|done].
  intros H. exists cells. split; [done|]. by rewrite (mapM_quoted _ _ H).
Qed.

Lemma mapM_rows l (table : list (list string)) :
  Forall2 (λ reg strs, rendered reg = Normal strs) l table →
  ∃ rows, mapM csv_cells l = Normal rows
          ∧ mapM csv_line rows
            = Normal ((λ strs, Str.join Str.comma (quote <$> strs)) <$> table).
Proof.
  induction 1 as [|reg strs l table Hreg _ (rows & Hrows & Hlines)].
  - by exists [].
  - apply csv_line_rendered in Hreg as (cells & Hcells & Hline).
    exists (cells :: rows). simpl. by rewrite Hcells, Hrows, Hline, Hlines.
Qed.

Lemma is_zero_length {A} (l : list A) :
  is_zero (Some (JNum (inject_Z (Z.of_nat (length l)))))
  = bool_decide (l = []).
Proof. by destruct l. Qed.

Lemma csv_headers_joined : Str.join Str.comma csv_headers = csv_header_line.
Proof. reflexivity. Qed.







(** The export of a non-empty array whose cells convert to strings. *)
Lemma exportToCSV_table st l (table : list (list string)) :
  getAllRegistrations st = JArr l → l ≠ [] →
  Forall2 (λ reg strs, rendered reg = Normal strs) l table →
  exportToCSV st
  = Normal
      (Str.join Str.LF
         (csv_header_line
          :: ((λ strs, Str.join Str.comma (quote <$> strs)) <$> table))).
Proof.
  intros Hst Hne Htable. unfold exportToCSV. rewrite Hst.
  cbn [js_length mbind completion_bind]. rewrite is_zero_length.
  rewrite bool_decide_eq_false_2 by done.
  destruct (mapM_rows l table Htable) as (cells & -> & Hlines).
  cbn [mbind completion_bind]. rewrite Hlines.
  cbn [mbind completion_bind]. by rewrite csv_headers_joined.
Qed.

Lemma ToString_flat v : flat v = true → ∃ s, Str.ToString_opt v = Normal s.
Proof. destruct v as [[]|]; simpl; eauto; done. Qed.

(** A record whose exported fields are absent, or strings, numbers,
    booleans or [null], always converts. *)
Lemma rendered_flat o :
  (∀ k, k ∈ exported → flat (o !! k) = true) →
  ∃ strs, rendered (JObj o) = Normal strs.
Proof.
  intros Hflat. unfold rendered. simpl.
  assert (flat (or_else (o !! "email") (JStr JS.empty)) = true) as Hemail.
  { unfold or_else. destruct (JS.truthy_opt (o !! "email")); [|done].
    apply Hflat. unfold exported. do 2 right. left. }
  destruct (ToString_flat _ Hemail) as [email ->].
  repeat match goal with
  | |- context [Str.ToString_opt (o !! ?k)] =>
      let s := fresh "s" in
      destruct (ToString_flat (o !! k)) as [s ->];
      [apply Hflat; unfold exported; set_solver|]
  end.
  simpl. eauto.
Qed.





Lemma mapM_csv_line (rows : list (list (option value))) (lines : list string) :
  mapM csv_line rows = Normal lines →
  ∃ table : list (list string),
    Forall2 (λ cells row, mapM quoted cells = Normal row) rows table
    ∧ lines = Str.join Str.comma <$> table.
Proof.
  rewrite mapM_Normal. induction 1 as [|cells line rows lines Hline _ IH].
  - by exists [].
  - destruct IH as (table & Htable & ->). unfold csv_line in Hline.
    destruct (mapM quoted cells) as [row|] eqn:Hrow; simpl in Hline; [|done].
    injection Hline as <-. exists (row :: table). split; [|done].
    by constructor.
Qed.

(** What a successful export of a non-empty array is made of. *)
Lemma exportToCSV_rows st l csv :
  getAllRegistrations st = JArr l → l ≠ [] →
  exportToCSV st = Normal csv →
  ∃ table : list (list string),
    Forall2 (λ reg row, ∃ cells, csv_cells reg = Normal cells
                                 ∧ mapM quoted cells = Normal row) l table
    ∧ csv = Str.join Str.LF (csv_header_line :: (Str.join Str.comma <$> table)).
Proof.
  intros Hst Hne. unfold exportToCSV. rewrite Hst.
  cbn [js_length mbind completion_bind]. rewrite is_zero_length.
  rewrite bool_decide_eq_false_2 by done.
  destruct (mapM csv_cells l) as [rows|] eqn:Hrows;
    cbn [mbind completion_bind]; [|done].
  destruct (mapM csv_line rows) as [lines|] eqn:Hlines;
    cbn [mbind completion_bind]; [|done].
  intros [= <-].
  apply mapM_csv_line in Hlines as (table & Htable & ->).
  exists table. split; [|reflexivity].
  apply mapM_Normal in Hrows. clear Hst Hne.
  revert table Htable.
  induction Hrows as [|reg cells l rows Hreg _ IH]; intros table Htable.
  - inversion Htable. constructor.
  - inversion Htable as [|? row ? table' Hrow Hrest]; subst.
    constructor; [eauto | by apply IH].
Qed.








(** ** Filter *)

Lemma rejects_record filters k o :
  rejects filters k (JObj o) = Normal (negb (criterion_met filters o k)).
Proof.
  unfold rejects, criterion_met.
  by destruct (JS.truthy_opt (filters !! k)).
Qed.

Lemma filter_matches_record filters o :
  filter_matches filters (JObj o) = Normal (passes filters o).
Proof.
  unfold filter_matches, passes, filterKeys. rewrite !rejects_record. simpl.
  by repeat match goal with |- context [criterion_met filters o ?k] =>
    destruct (criterion_met filters o k) end.
Qed.

Lemma strict_eq_string a s :
  JS.strict_eq a (Some (JStr s)) = true ↔ a = Some (JStr s).
Proof.
  destruct a as [[| | |s'| |]|]; simpl; try (split; done).
  rewrite String.eqb_eq. split; [by intros -> | by intros [= ->]].
Qed.

(** C9 (as amended).  On a stored collection of records
    [filterRegistrations] returns, in order, exactly the records for which
    every key among [type], [status], [city], [state] whose criterion is
    truthy has a field strictly equal to the criterion; a key that is absent
    from the criteria, or whose criterion is the empty string or another
    falsy value, imposes no constraint.  For a non-empty string criterion,
    strict equality is equality of the strings, case included. *)
Theorem filter_registrations filters st (recs : list (gmap string value)) :
  getAllRegistrations st = JArr (JObj <$> recs) →
  filterRegistrations filters st
  = Normal (JObj <$> List.filter (passes filters) recs)
  ∧ (∀ o, o ∈ List.filter (passes filters) recs ↔
          o ∈ recs ∧
          ∀ k, k ∈ filterKeys → JS.truthy_opt (filters !! k) = true →
               JS.strict_eq (o !! k) (filters !! k) = true)
  ∧ (∀ o k s, o ∈ List.filter (passes filters) recs → k ∈ filterKeys →
              filters !! k = Some (JStr s) → s ≠ JS.empty →
              o !! k = Some (JStr s)).
Proof.
  intros Hst.
  assert (Hpasses : ∀ o, passes filters o = true ↔
            ∀ k, k ∈ filterKeys → JS.truthy_opt (filters !! k) = true →
                 JS.strict_eq (o !! k) (filters !! k) = true).
  { intros o. unfold passes. rewrite forallb_forall. split.
    - intros H k Hk%list_elem_of_In Ht. specialize (H k Hk).
      unfold criterion_met in H. by rewrite Ht in H.
    - intros H k Hk%list_elem_of_In. unfold criterion_met.
      destruct (JS.truthy_opt (filters !! k)) eqn:Ht; [|done]. by apply H. }
  assert (Hmem : ∀ o, o ∈ List.filter (passes filters) recs ↔
                      o ∈ recs ∧ passes filters o = true).
  { intros o. by rewrite !list_elem_of_In, filter_In. }
  split; [|split].
  - unfold filterRegistrations. rewrite Hst.
    apply filter_records, filter_matches_record.
  - intros o. by rewrite Hmem, Hpasses.
  - intros o k s [_ Ho]%Hmem Hk Hf Hs.
    apply strict_eq_string. rewrite <- Hf.
    apply (proj1 (Hpasses o) Ho k Hk). rewrite Hf. simpl.
    apply negb_true_iff, String.eqb_neq. done.
Qed.

Lemma filter_registrations_witness :
  getAllRegistrations Sample.both_saved
  = JArr (JObj <$> [with_metadata Sample.t0 Sample.iso0 Sample.alice;
                    with_metadata Sample.t0 Sample.iso1 Sample.bob])
  ∧ filterRegistrations Sample.agencies_in_KA Sample.both_saved
    = Normal [JObj (with_metadata Sample.t0 Sample.iso0 Sample.alice)].
Proof.
  split; [reflexivity|].
  destruct (filter_registrations Sample.agencies_in_KA Sample.both_saved
              [with_metadata Sample.t0 Sample.iso0 Sample.alice;
               with_metadata Sample.t0 Sample.iso1 Sample.bob] eq_refl)
    as (H & _).
  rewrite H. reflexivity.
Defined.

(** C9 as stated fails: a criterion that is present but empty imposes no
    constraint; the record of type [Agency] passes the criterion [type = ''],
    which it does not equal. *)
Lemma filter_registrations_empty_criterion :
  Sample.any_type !! "type" = Some (JStr JS.empty)
  ∧ with_metadata Sample.t0 Sample.iso0 Sample.alice !! "type"
    = Some (JStr "Agency")
  ∧ JS.strict_eq
      (with_metadata Sample.t0 Sample.iso0 Sample.alice !! "type")
      (Sample.any_type !! "type") = false
  ∧ filterRegistrations Sample.any_type Sample.alice_saved
    = Normal [JObj (with_metadata Sample.t0 Sample.iso0 Sample.alice)].
Proof. repeat split; reflexivity. Qed.

(** * The rest of the class, and how the operations compose *)

(** ** Reading by id *)

Lemma find_records id (recs : list (gmap string value)) :
  JS.find (has_id id) (JObj <$> recs)
  = Normal ((JObj ∘ snd) <$> list_find (λ o, record_has_id id o = true) recs).
Proof.
  induction recs as [|o recs IH]; [done|].
  cbn [fmap list_fmap JS.find]. rewrite has_id_record. simpl.
  destruct (record_has_id id o) eqn:E.
  - by rewrite decide_True.
  - rewrite decide_False by congruence. rewrite IH.
    by destruct (list_find _ recs) as [[]|].
Qed.

Lemma getRegistrationById_records id st (recs : list (gmap string value)) :
  getAllRegistrations st = JArr (JObj <$> recs) →
  getRegistrationById id st
  = Normal ((JObj ∘ snd) <$> list_find (λ o, record_has_id id o = true) recs).
Proof.
  intros Hst. unfold getRegistrationById. rewrite Hst, find_records. simpl.
  by destruct (list_find _ recs) as [[]|].
Qed.

(** [getRegistrationById] never returns a record with another id: what it
    returns is a stored object whose [id] is strictly equal to the id asked
    for. *)
Theorem read_by_id_sound id st v :
  getRegistrationById id st = Normal (Some v) →
  ∃ l o, getAllRegistrations st = JArr l ∧ v ∈ l ∧ v = JObj o
         ∧ record_has_id id o = true.
Proof.
  unfold getRegistrationById.
  destruct (getAllRegistrations st) as [| | | |l|]; try done.
  destruct (JS.find (has_id id) l) as [[x|]|] eqn:E; simpl; try done.
  destruct (JS.truthy x); [|done]. intros [= ->].
  apply find_Some in E as [Hid Hin].
  pose proof Hid as (o & q & -> & _)%has_id_object.
  rewrite has_id_record in Hid. injection Hid as Hid.
  by exists l, o.
Qed.

Lemma read_by_id_sound_witness :
  getRegistrationById (inject_Z Sample.t0) Sample.both_saved
  = Normal (Some (JObj (with_metadata Sample.t0 Sample.iso0 Sample.alice)))
  ∧ ∃ l o, getAllRegistrations Sample.both_saved = JArr l
           ∧ JObj (with_metadata Sample.t0 Sample.iso0 Sample.alice) ∈ l
           ∧ JObj (with_metadata Sample.t0 Sample.iso0 Sample.alice) = JObj o
           ∧ record_has_id (inject_Z Sample.t0) o = true.
Proof.
  split; [reflexivity|].
  apply (read_by_id_sound (inject_Z Sample.t0) Sample.both_saved).
  reflexivity.
Defined.

(** ** Saving *)

(** When the stored value is not an array, [saveToJSON] returns [false]:
    it keeps the stamped data as the current data and leaves the stored item
    as it was.  So a result of [true] tells that the store held an array (or
    nothing). *)
Theorem save_refused now iso data st :
  ((∀ l, getAllRegistrations st ≠ JArr l) →
   saveToJSON now iso data st
   = (false, State (Some (with_metadata now iso data)) (item st)))
  ∧ ((saveToJSON now iso data st).1 = true →
     ∃ l, getAllRegistrations st = JArr l).
Proof.
  unfold saveToJSON.
  replace (getAllRegistrations
             (State (Some (with_metadata now iso data)) (item st)))
    with (getAllRegistrations st) by done.
  destruct (getAllRegistrations st) as [| | | |l|] eqn:E; simpl;
    (split; [done | done]) || (split; [intros H; by destruct (H l) | eauto]).
Qed.

Lemma save_refused_witness :
  (∀ l, getAllRegistrations Sample.foreign_store ≠ JArr l)
  ∧ saveToJSON Sample.t0 Sample.iso0 Sample.alice Sample.foreign_store
    = (false,
       State (Some (with_metadata Sample.t0 Sample.iso0 Sample.alice))
         (Some (Encodes (JObj (Sample.obj [("theme", JStr "dark")]))))).
Proof.
  assert (H : ∀ l, getAllRegistrations Sample.foreign_store ≠ JArr l)
    by (intros l; discriminate).
  split; [exact H|].
  destruct (save_refused Sample.t0 Sample.iso0 Sample.alice
              Sample.foreign_store) as [Hrefused _].
  exact (Hrefused H).
Defined.

(** On a stored array [saveToJSON] appends: the elements stored before keep
    their places, the new record is the last one, the length grows by one. *)
Theorem save_appends now iso data st l :
  getAllRegistrations st = JArr l →
  let st' := (saveToJSON now iso data st).2 in
  stored_length st' = Some (S (length l))
  ∧ (∀ i x, l !! i = Some x →
            ∃ l', getAllRegistrations st' = JArr l' ∧ l' !! i = Some x)
  ∧ ∃ l', getAllRegistrations st' = JArr l'
          ∧ l' !! length l = Some (JObj (with_metadata now iso data)).
Proof.
  intros Hst st'. unfold st'. rewrite (saveToJSON_array _ _ _ _ _ Hst).
  cbn [snd]. unfold stored_length. rewrite getAllRegistrations_setItem.
  split; [by rewrite length_app, Nat.add_1_r|]. split.
  - intros i x Hi. eexists. split; [done|]. by apply lookup_app_l_Some.
  - eexists. split; [done|].
    by rewrite lookup_app_r, Nat.sub_diag by lia.
Qed.

Lemma save_appends_witness :
  getAllRegistrations Sample.alice_saved
  = JArr [JObj (with_metadata Sample.t0 Sample.iso0 Sample.alice)]
  ∧ stored_length Sample.both_saved = Some 2.
Proof.
  split; [reflexivity|].
  apply (save_appends Sample.t0 Sample.iso1 Sample.bob Sample.alice_saved
           [JObj (with_metadata Sample.t0 Sample.iso0 Sample.alice)]).
  reflexivity.
Defined.

(** Whatever [saveToJSON] returns, the record it was given is the current
    one afterwards: [downloadCurrentData] offers it, with its metadata,
    under a name built from its [name] -- also when the save failed and the
    record is not in the store.  A record whose [name] is not a string
    cannot be downloaded. *)
Theorem save_then_download now iso data st now' :
  let st' := (saveToJSON now iso data st).2 in
  currentData st' = Some (with_metadata now iso data)
  ∧ (∀ name, data !! "name" = Some (JStr name) →
       downloadCurrentData now' st'
       = (true,
          Some (Download
                  (Json (JSON_stringify (JObj (with_metadata now iso data))))
                  ("registration_" +:+ FileName.sanitize name +:+ "_"
                   +:+ Str.Number_toString (inject_Z now') +:+ ".json")
                  "application/json")))
  ∧ ((∀ name, data !! "name" ≠ Some (JStr name)) →
       downloadCurrentData now' st' = (false, None)).
Proof.
  intros st'.
  assert (currentData st' = Some (with_metadata now iso data)) as Hcur.
  { unfold st', saveToJSON.
    by destruct (push _ _). }
  assert (with_metadata now iso data !! "name" = data !! "name") as Hname.
  { unfold with_metadata. by rewrite !lookup_insert_ne. }
  split; [done|]. unfold downloadCurrentData. rewrite Hcur, Hname. split.
  - by intros name ->.
  - intros Hnot. destruct (data !! "name") as [[| | |s| |]|]; try done.
    by destruct (Hnot s).
Qed.

Lemma save_then_download_witness :
  Sample.alice !! "name" = Some (JStr "Alice")
  ∧ (saveToJSON Sample.t0 Sample.iso0 Sample.alice Sample.foreign_store).1
    = false
  ∧ downloadCurrentData 1704067200500
      (saveToJSON Sample.t0 Sample.iso0 Sample.alice Sample.foreign_store).2
    = (true,
       Some (Download
               (Json (JSON_stringify
                        (JObj (with_metadata Sample.t0 Sample.iso0
                                 Sample.alice))))
               "registration_Alice_1704067200500.json"
               "application/json")).
Proof.
  split; [reflexivity|]. split; [reflexivity|].
  destruct (save_then_download Sample.t0 Sample.iso0 Sample.alice
              Sample.foreign_store 1704067200500) as (_ & H & _).
  apply (H "Alice"). reflexivity.
Defined.

(** ** Deleting and updating, then reading *)

Lemma filter_all {A} (q : A → bool) (l : list A) :
  length (List.filter q l) = length l → List.filter q l = l.
Proof.
  induction l as [|x l IH]; simpl; [done|].
  destruct (q x); simpl.
  - intros [= H]. by rewrite IH.
  - intros H. pose proof (List.filter_length_le q l). lia.
Qed.

Lemma filter_filter_same {A} (q : A → bool) (l : list A) :
  List.filter q (List.filter q l) = List.filter q l.
Proof.
  induction l as [|x l IH]; simpl; [done|].
  destruct (q x) eqn:E; simpl; [|done]. by rewrite E, IH.
Qed.

(** What [deleteRegistration] does on a stored collection of records. *)
Lemma deleteRegistration_records id st (recs : list (gmap string value)) :
  getAllRegistrations st = JArr (JObj <$> recs) →
  let kept := List.filter (λ o, negb (record_has_id id o)) recs in
  deleteRegistration id st
  = (if length recs =? length kept then (false, st)
     else (true, setItem (JSON_stringify (JArr (JObj <$> kept))) st))
  ∧ getAllRegistrations (deleteRegistration id st).2 = JArr (JObj <$> kept).
Proof.
  intros Hst kept.
  assert (deleteRegistration id st
          = (if length recs =? length kept then (false, st)
             else (true, setItem (JSON_stringify (JArr (JObj <$> kept))) st)))
    as Hdel.
  { unfold deleteRegistration. rewrite Hst.
    rewrite (filter_records _ (λ o, negb (record_has_id id o)))
      by apply lacks_id_record.
    simpl. rewrite !length_fmap. fold kept.
    by destruct (length recs =? length kept). }
  split; [done|]. rewrite Hdel.
  destruct (Nat.eqb_spec (length recs) (length kept)) as [Heq|]; [|done].
  cbn [snd]. rewrite Hst. f_equal. f_equal. symmetry.
  by apply filter_all.
Qed.

(** After [deleteRegistration id], on a stored collection of records, no
    record with that id can be read, and deleting the id again returns
    [false] and changes nothing. *)
Theorem delete_then_read id st (recs : list (gmap string value)) :
  getAllRegistrations st = JArr (JObj <$> recs) →
  let st' := (deleteRegistration id st).2 in
  getRegistrationById id st' = Normal None
  ∧ deleteRegistration id st' = (false, st').
Proof.
  intros Hst st'.
  destruct (deleteRegistration_records id st recs Hst) as [_ Hst'].
  fold st' in Hst'. split.
  - rewrite (getRegistrationById_records id st' _ Hst').
    replace (list_find _ _) with (@None (nat * gmap string value)); [done|].
    symmetry. apply list_find_None, Forall_forall.
    intros o [_ Ho]%list_elem_of_In%filter_In.
    destruct (record_has_id id o); done.
  - destruct (deleteRegistration_records id st' _ Hst') as [-> _].
    by rewrite filter_filter_same, Nat.eqb_refl.
Qed.

Lemma delete_then_read_witness :
  getAllRegistrations Sample.both_saved
  = JArr (JObj <$> [with_metadata Sample.t0 Sample.iso0 Sample.alice;
                    with_metadata Sample.t0 Sample.iso1 Sample.bob])
  ∧ getRegistrationById (inject_Z Sample.t0)
      (deleteRegistration (inject_Z Sample.t0) Sample.both_saved).2
    = Normal None.
Proof.
  split; [reflexivity|].
  apply (delete_then_read (inject_Z Sample.t0) Sample.both_saved
           [with_metadata Sample.t0 Sample.iso0 Sample.alice;
            with_metadata Sample.t0 Sample.iso1 Sample.bob]).
  reflexivity.
Defined.

(** After [updateRegistration id] with data that carries no [id] field, on a
    stored collection of records one of which has the id, reading the id
    returns the merged record: the first record with the id, with the
    supplied fields and the new [updatedAt]. *)
Theorem update_then_read iso id updatedData st
    (recs : list (gmap string value)) i rec :
  getAllRegistrations st = JArr (JObj <$> recs) →
  list_find (λ o, record_has_id id o = true) recs = Some (i, rec) →
  updatedData !! "id" = None →
  getRegistrationById id (updateRegistration iso id updatedData st).2
  = Normal (Some (JObj (merged iso (JObj rec) updatedData))).
Proof.
  intros Hst Hfind Hid.
  pose proof Hfind as (Hi & Hrec & Hbefore)%list_find_Some.
  assert (getAllRegistrations (updateRegistration iso id updatedData st).2
          = JArr (JObj <$> <[i := merged iso (JObj rec) updatedData]> recs))
    as Hst'.
  { unfold updateRegistration.
    rewrite Hst, findIndex_records, Hfind. simpl.
    rewrite list_lookup_fmap, Hi. simpl. by rewrite list_fmap_insert. }
  rewrite (getRegistrationById_records id _ _ Hst').
  replace (list_find _ _)
    with (Some (i, merged iso (JObj rec) updatedData)); [done|].
  symmetry. apply list_find_Some. split; [|split].
  - apply list_lookup_insert_eq. by eapply lookup_lt_Some.
  - unfold record_has_id in *. by rewrite merged_other.
  - intros j y Hj Hlt. rewrite list_lookup_insert_ne in Hj by lia. eauto.
Qed.

Lemma update_then_read_witness :
  getAllRegistrations Sample.both_saved
  = JArr (JObj <$> [with_metadata Sample.t0 Sample.iso0 Sample.alice;
                    with_metadata Sample.t0 Sample.iso1 Sample.bob])
  ∧ Sample.new_city !! "id" = None
  ∧ getRegistrationById (inject_Z Sample.t0)
      (updateRegistration Sample.iso2 (inject_Z Sample.t0) Sample.new_city
         Sample.both_saved).2
    = Normal
        (Some (JObj (merged Sample.iso2
                       (JObj (with_metadata Sample.t0 Sample.iso0 Sample.alice))
                       Sample.new_city))).
Proof.
  split; [reflexivity|]. split; [reflexivity|].
  apply (update_then_read Sample.iso2 (inject_Z Sample.t0) Sample.new_city
           Sample.both_saved
           [with_metadata Sample.t0 Sample.iso0 Sample.alice;
            with_metadata Sample.t0 Sample.iso1 Sample.bob]
           0 (with_metadata Sample.t0 Sample.iso0 Sample.alice));
    reflexivity.
Defined.

(** [updateRegistration] never adds or removes a record: whatever the store
    and the data, the number of stored elements is the same afterwards. *)
Theorem update_keeps_length iso id updatedData st :
  stored_length (updateRegistration iso id updatedData st).2
  = stored_length st.
Proof.
  destruct (updateRegistration_cases iso id updatedData st)
    as [->|(l & i & o & Hst & _ & _ & ->)]; [done|].
  cbn [snd]. unfold stored_length.
  by rewrite getAllRegistrations_setItem, Hst, length_insert.
Qed.

(** ** Clearing *)

(** A declined [clearAllRegistrations] changes nothing.  After a confirmed
    one every reader finds an empty collection -- no record under any id, no
    filtered record, an empty CSV, nothing to download -- while the current
    record of the object is kept. *)
Theorem clear_all st :
  clearAllRegistrations false st = (false, st)
  ∧ (clearAllRegistrations true st).1 = true
  ∧ let st' := (clearAllRegistrations true st).2 in
    getAllRegistrations st' = JArr []
    ∧ (∀ id, getRegistrationById id st' = Normal None)
    ∧ (∀ filters, filterRegistrations filters st' = Normal [])
    ∧ exportToCSV st' = Normal JS.empty
    ∧ (∀ now, downloadCSV now st' = Normal None)
    ∧ (∀ iso now, downloadAllRegistrations iso now st' = Normal (false, None))
    ∧ currentData st' = currentData st.
Proof. repeat split. Qed.

(** ** Filtering without criteria *)

Lemma filter_const_true (p : value → completion bool) l :
  (∀ x, p x = Normal true) → JS.filter p l = Normal l.
Proof.
  intros Hp. induction l as [|x l IH]; simpl; [done|].
  by rewrite Hp, IH.
Qed.

(** When none of the four criteria is truthy, [filterRegistrations] does
    not look at the records: it returns the stored array as it is, also
    when some element is [null] or not a record at all. *)
Theorem filter_without_criteria filters st l :
  (∀ k, k ∈ filterKeys → JS.truthy_opt (filters !! k) = false) →
  getAllRegistrations st = JArr l →
  filterRegistrations filters st = Normal l.
Proof.
  intros Hnone Hst. unfold filterRegistrations. rewrite Hst.
  apply filter_const_true. intros x. unfold filter_matches, rejects.
  rewrite !Hnone by (unfold filterKeys; set_solver). done.
Qed.

Lemma filter_without_criteria_witness :
  (∀ k, k ∈ filterKeys → JS.truthy_opt (Sample.any_type !! k) = false)
  ∧ getAllRegistrations (State None (Some (Encodes (JArr [JNull; JNum 3]))))
    = JArr [JNull; JNum 3]
  ∧ filterRegistrations Sample.any_type
      (State None (Some (Encodes (JArr [JNull; JNum 3]))))
    = Normal [JNull; JNum 3].
Proof.
  assert (∀ k, k ∈ filterKeys → JS.truthy_opt (Sample.any_type !! k) = false)
    as Hnone.
  { intros k Hk. unfold filterKeys in Hk.
    repeat (apply elem_of_cons in Hk as [->|Hk]; [reflexivity|]).
    by apply elem_of_nil in Hk. }
  split; [exact Hnone|]. split; [reflexivity|].
  apply (filter_without_criteria Sample.any_type _ [JNull; JNum 3] Hnone).
  reflexivity.
Defined.

(** ** A store that does not hold an array *)

Section foreign_store.
Context `{environment : Primitives}.

(** On a stored value that parses but is not an array, the readers throw a
    TypeError past the caller (they have no [try]): reading by id,
    filtering, searching, the date range and the statistics. *)
Theorem readers_throw st :
  (∀ l, getAllRegistrations st ≠ JArr l) →
  (∀ id, getRegistrationById id st = Throw TypeError)
  ∧ (∀ filters, filterRegistrations filters st = Throw TypeError)
  ∧ (∀ toLowerCase term,
       searchRegistrations toLowerCase term st = Throw TypeError)
  ∧ (∀ Date_parse startDate endDate,
       getRegistrationsByDateRange Date_parse startDate endDate st
       = Throw TypeError)
  ∧ (∀ inherited, getStatistics inherited st = Throw TypeError).
Proof.
  intros Hst.
  unfold getRegistrationById, filterRegistrations, searchRegistrations,
    getRegistrationsByDateRange, getStatistics.
  destruct (getAllRegistrations st) as [| | | |l|]; try done.
  by destruct (Hst l).
Qed.

End foreign_store.

Lemma readers_throw_witness :
  (∀ l, getAllRegistrations Sample.foreign_store ≠ JArr l)
  ∧ getRegistrationById 1 Sample.foreign_store = Throw TypeError
  ∧ getStatistics Fixture.prototype Sample.foreign_store = Throw TypeError.
Proof.
  assert (∀ l, getAllRegistrations Sample.foreign_store ≠ JArr l) as Hst
    by (intros l; discriminate).
  split; [exact Hst|].
  destruct (readers_throw Sample.foreign_store Hst) as (Hid & _ & _ & _ & Hs).
  split; [apply Hid | apply Hs].
Defined.

(** On the same kind of store the operations that write catch the error:
    [updateRegistration] and [deleteRegistration] return [false] and change
    nothing, and so does [importFromJSON], whatever the file, unless the
    stored value is a string. *)
Theorem writers_refuse st :
  (∀ l, getAllRegistrations st ≠ JArr l) →
  (∀ iso id updatedData,
     updateRegistration iso id updatedData st = (false, st))
  ∧ (∀ id, deleteRegistration id st = (false, st))
  ∧ ((∀ s, getAllRegistrations st ≠ JStr s) →
     ∀ clock file, importFromJSON clock file st = (false, st)).
Proof.
  intros Hst. split; [|split].
  - intros iso id updatedData. unfold updateRegistration.
    destruct (getAllRegistrations st) as [| | | |l|]; try done.
    by destruct (Hst l).
  - intros id. unfold deleteRegistration.
    destruct (getAllRegistrations st) as [| | | |l|]; try done.
    by destruct (Hst l).
  - intros Hs clock file. unfold importFromJSON.
    destruct (JSON_parse file) as [data|]; simpl; [|done].
    destruct (registrationsToImport data); simpl; [|done].
    destruct (getAllRegistrations st) as [| | |s|l|]; try done.
    + by destruct (Hs s).
    + by destruct (Hst l).
Qed.

Lemma writers_refuse_witness :
  (∀ l, getAllRegistrations Sample.foreign_store ≠ JArr l)
  ∧ (∀ s, getAllRegistrations Sample.foreign_store ≠ JStr s)
  ∧ deleteRegistration 1 Sample.foreign_store = (false, Sample.foreign_store)
  ∧ importFromJSON Sample.clock Sample.bundle Sample.foreign_store
    = (false, Sample.foreign_store).
Proof.
  assert (∀ l, getAllRegistrations Sample.foreign_store ≠ JArr l) as Hst
    by (intros l; discriminate).
  assert (∀ s, getAllRegistrations Sample.foreign_store ≠ JStr s) as Hs
    by (intros s; discriminate).
  split; [exact Hst|]. split; [exact Hs|].
  destruct (writers_refuse Sample.foreign_store Hst) as (_ & Hdel & Himp).
  split; [apply Hdel | by apply Himp].
Defined.

(** ** Validation: what it looks at, and a form that passes *)

Lemma check_required_agree (d1 d2 : gmap string value) fields errors :
  (∀ f, f ∈ fields → d1 !! f = d2 !! f) →
  check_required d1 fields errors = check_required d2 fields errors.
Proof.
  revert errors. induction fields as [|f fields IH]; intros errors H; [done|].
  simpl. rewrite (H f) by left.
  destruct (is_blank (d2 !! f)) as [b|]; simpl; [|done].
  apply IH. intros g Hg. apply H. by right.
Qed.

(** [validateData] looks at the ten required fields and the four
    multi-valued fields and at nothing else: two inputs that agree on them
    get the same result, so a field such as [address2] or [email] is never
    validated. *)
Theorem validation_looks_at (d1 d2 : gmap string value) :
  (∀ f, f ∈ requiredFields ++ multiFields.*1 → d1 !! f = d2 !! f) →
  validateData d1 = validateData d2.
Proof.
  intros H. unfold validateData, check_multi, check_postal.
  rewrite (check_required_agree d1 d2).
  - rewrite (H "cityMulti"), (H "pinCode"), (H "areaMulti"), (H "languages"),
      (H "postalCode");
      (done || (unfold requiredFields, multiFields; set_solver)).
  - intros f Hf. apply H. apply elem_of_app. by left.
Qed.

Lemma validation_looks_at_witness :
  (∀ f, f ∈ requiredFields ++ multiFields.*1 →
        <["email" := JNum 7]> Fixture.complete_form !! f
        = Fixture.complete_form !! f)
  ∧ validateData (<["email" := JNum 7]> Fixture.complete_form)
    = validateData Fixture.complete_form.
Proof.
  assert (∀ f, f ∈ requiredFields ++ multiFields.*1 →
               <["email" := JNum 7]> Fixture.complete_form !! f
               = Fixture.complete_form !! f) as H.
  { intros f Hf. unfold requiredFields, multiFields in Hf. simpl in Hf.
    repeat (apply elem_of_cons in Hf as [->|Hf]; [reflexivity|]).
    by apply elem_of_nil in Hf. }
  split; [exact H|]. by apply validation_looks_at.
Defined.

Lemma is_blank_text s :
  Str.trim s ≠ JS.empty → is_blank (Some (JStr s)) = Normal false.
Proof.
  intros Hs. unfold is_blank. destruct s as [|a s]; [done|].
  simpl. f_equal. by apply String.eqb_neq.
Qed.

(** A form passes when every required field is a string that is not blank,
    every multi-valued field is a non-empty array and the postal code is six
    digits: [validateData] returns [valid = true] and no error. *)
Theorem complete_form_is_valid (data : gmap string value) :
  (∀ f, f ∈ requiredFields →
        ∃ s, data !! f = Some (JStr s) ∧ Str.trim s ≠ JS.empty) →
  (∀ k, k ∈ multiFields.*1 → ∃ x l, data !! k = Some (JArr (x :: l))) →
  Str.six_digits (data !! "postalCode") = Normal true →
  validateData data = Normal (Validation true []).
Proof.
  intros Hreq Hmulti Hpostal.
  assert (∀ f, f ∈ requiredFields → is_blank (data !! f) = Normal false)
    as Hblank.
  { intros f (s & -> & Hs)%Hreq. by apply is_blank_text. }
  assert (∀ k, k ∈ multiFields.*1 →
               holds (nothing_selected (data !! k)) = false) as Hsel.
  { intros k (x & l & ->)%Hmulti. done. }
  unfold validateData.
  rewrite (check_required_all data requiredFields [])
    by (intros f Hf; rewrite (Hblank f Hf); eauto).
  replace (List.filter _ requiredFields) with (@nil string).
  2:{ symmetry. apply filter_nil_iff. intros f Hf. by rewrite (Hblank f Hf). }
  cbn [mbind completion_bind List.map app].
  repeat (rewrite check_multi_Normal, Hsel
            by (unfold multiFields; set_solver);
          cbn [mbind completion_bind app]).
  rewrite (check_postal_Normal data [] false)
    by (apply Hblank; unfold requiredFields; do 4 right; left).
  unfold postal_malformed. rewrite Hpostal. simpl.
  by rewrite andb_false_r.
Qed.

Lemma complete_form_is_valid_witness :
  Str.six_digits (Fixture.complete_form !! "postalCode") = Normal true
  ∧ validateData Fixture.complete_form = Normal (Validation true []).
Proof.
  split; [reflexivity|].
  apply complete_form_is_valid; [| |reflexivity].
  - intros f Hf. unfold requiredFields in Hf.
    repeat (apply elem_of_cons in Hf as [->|Hf];
            [eexists; split; [reflexivity | discriminate]|]).
    by apply elem_of_nil in Hf.
  - intros k Hk. unfold multiFields in Hk. simpl in Hk.
    repeat (apply elem_of_cons in Hk as [->|Hk];
            [eexists _, _; reflexivity|]).
    by apply elem_of_nil in Hk.
Defined.

(** ** File names *)




Lemma filter_Forall {A} (q : A → bool) (l : list A) :
  Forall (λ x, q x = true) (List.filter q l).
Proof.
  apply Forall_forall. intros x Hx%list_elem_of_In%filter_In. tauto.
Qed.



(** [generateFileName] needs a string: for a name that is missing or is of
    another type it throws.  For a string the file name is
    [registration_], the sanitized name, an underscore, the clock reading
    and [.json]; a name without a letter or digit leaves only underscores
    or nothing in between. *)
Theorem file_name_of_record now name :
  (∀ s, name = Some (JStr s) →
        generateFileName now name
        = Normal ("registration_" +:+ FileName.sanitize s +:+ "_"
                  +:+ pretty now +:+ ".json"))
  ∧ ((∀ s, name ≠ Some (JStr s)) → generateFileName now name = Throw TypeError).
Proof.
  split.
  - intros s ->. unfold generateFileName, Str.Number_toString. simpl.
    rewrite Z.mod_1_r, Z.div_1_r. done.
  - intros H. destruct name as [[| | |s| |]|]; try done. by destruct (H s).
Qed.

Lemma file_name_of_record_witness :
  generateFileName 1704067200500 (Some (JStr "Asha  Rao, Jr."))
  = Normal "registration_Asha_Rao_Jr_1704067200500.json"
  ∧ generateFileName 1704067200500 (Some (JNum 5)) = Throw TypeError.
Proof.
  destruct (file_name_of_record 1704067200500 (Some (JStr "Asha  Rao, Jr.")))
    as [Hs _].
  destruct (file_name_of_record 1704067200500 (Some (JNum 5))) as [_ Hn].
  split.
  - rewrite (Hs _ eq_refl). reflexivity.
  - apply Hn. discriminate.
Defined.

(** ** The downloads *)

(** The bundle that [downloadAllRegistrations] hands out for a non-empty
    stored array records the number of elements as [totalUsers] and can be
    imported back: [importFromJSON] of its text leaves the collection it is
    imported into in place and appends one record per stored element, in
    order; a stored record comes back with its own fields, except for a fresh
    [id] (the clock reading plus a random fraction, as a double) and an
    [importedAt] stamp.  For an empty collection nothing is downloaded. *)
Theorem bundle_round_trip stamp ms st l :
  getAllRegistrations st = JArr l →
  (l = [] → downloadAllRegistrations stamp ms st = Normal (false, None))
  ∧ (l ≠ [] →
     ∃ t bundle metadata,
       downloadAllRegistrations stamp ms st
       = Normal (true,
                 Some (Download (Json t)
                         ("all_registrations_" +:+ pretty ms +:+ ".json")
                         "application/json"))
       ∧ JSON_parse t = Normal (JObj bundle)
       ∧ bundle !! "registrations" = Some (JArr l)
       ∧ bundle !! "metadata" = Some (JObj metadata)
       ∧ metadata !! "totalUsers"
         = Some (JNum (inject_Z (Z.of_nat (length l))))
       ∧ metadata !! "version" = Some (JStr "1.0")
       ∧ ∀ clock st0 existing,
           getAllRegistrations st0 = JArr existing →
           ∃ merged,
             importFromJSON clock t st0
             = (true, setItem (JSON_stringify (JArr merged)) st0)
             ∧ length merged = length existing + length l
             ∧ (∀ j x, existing !! j = Some x → merged !! j = Some x)
             ∧ (∀ k rec, l !! k = Some (JObj rec) →
                  merged !! (length existing + k)
                  = Some (JObj
                            (<["importedAt" := JStr (iso (clock k))]>
                               (<["id" := JNum (Double.add
                                                  (inject_Z (now (clock k)))
                                                  (random (clock k)))]>
                                  rec))))
             ∧ (∀ k reg, l !! k = Some reg →
                  merged !! (length existing + k)
                  = Some (imported (clock k) reg))).
Proof.
  intros Hst. unfold downloadAllRegistrations. rewrite Hst.
  cbn [length_of js_length mbind completion_bind]. rewrite is_zero_length.
  split.
  - intros ->. done.
  - intros Hne. rewrite bool_decide_eq_false_2 by done.
    eexists (JSON_stringify
               (exportData stamp (Some (JNum (inject_Z (Z.of_nat (length l)))))
                  (JArr l))), _, _.
    split.
    { unfold Str.Number_toString. simpl. rewrite Z.mod_1_r, Z.div_1_r. done. }
    split; [done|].
    split; [by rewrite lookup_insert_eq|].
    split; [by rewrite lookup_insert_ne, lookup_insert_eq|].
    split; [by rewrite lookup_insert_eq|].
    split; [by rewrite lookup_insert_ne, lookup_insert_eq|].
    intros clock st0 existing Hst0.
    exists (existing ++ imap (λ k reg, imported (clock k) reg) l).
    split; [|split; [|split; [|split]]].
    + unfold importFromJSON.
      cbn [JSON_parse JSON_stringify exportData registrationsToImport JS.get
           mbind completion_bind].
      rewrite lookup_insert_eq. cbn [mbind completion_bind].
      by rewrite Hst0.
    + by rewrite length_app, length_imap.
    + intros j x Hj. by apply lookup_app_l_Some.
    + intros k rec Hk. by rewrite (imported_lookup clock existing l k _ Hk).
    + intros k reg Hk. by apply imported_lookup.
Qed.

Lemma bundle_round_trip_witness :
  getAllRegistrations Sample.alice_saved
  = JArr [JObj (with_metadata Sample.t0 Sample.iso0 Sample.alice)]
  ∧ ∃ t merged,
      downloadAllRegistrations Sample.iso2 1709634030000 Sample.alice_saved
      = Normal (true,
                Some (Download (Json t)
                        "all_registrations_1709634030000.json"
                        "application/json"))
      ∧ importFromJSON Fixture.jitter t Sample.both_saved
        = (true, setItem (JSON_stringify (JArr merged)) Sample.both_saved)
      ∧ length merged = 3
      ∧ merged !! 0 = Some (JObj (with_metadata Sample.t0 Sample.iso0 Sample.alice))
      ∧ merged !! 1 = Some (JObj (with_metadata Sample.t0 Sample.iso1 Sample.bob))
      ∧ merged !! 2
        = Some (JObj
                  (<["importedAt" := JStr Sample.iso2]>
                     (<["id" := JNum (3489929625600205 # 2048)]>
                        (with_metadata Sample.t0 Sample.iso0 Sample.alice)))).
Proof.
  split; [reflexivity|].
  destruct (bundle_round_trip Sample.iso2 1709634030000 Sample.alice_saved
              _ eq_refl) as [_ H].
  destruct H as (t & bundle & metadata & Hd & _ & _ & _ & _ & _ & Himp);
    [discriminate|].
  destruct (Himp Fixture.jitter Sample.both_saved _ eq_refl)
    as (merged & Heq & Hlen & Hold & Hnew & _).
  exists t, merged. split; [exact Hd|]. split; [exact Heq|].
  split; [exact Hlen|].
  split; [exact (Hold 0 _ eq_refl)|]. split; [exact (Hold 1 _ eq_refl)|].
  refine (eq_trans (Hnew 0 _ eq_refl) _). vm_compute. reflexivity.
Defined.

(** [downloadCSV] hands out nothing for an empty collection; for a
    non-empty one whose cells convert to strings it always hands out the
    export, under [registrations_<clock>.csv], in a blob whose type is
    [application/json]. *)
Theorem csv_download now st l :
  getAllRegistrations st = JArr l →
  (l = [] → downloadCSV now st = Normal None)
  ∧ (∀ table : list (list string),
       l ≠ [] →
       Forall2 (λ reg strs, rendered reg = Normal strs) l table →
       ∃ csv, exportToCSV st = Normal csv
              ∧ downloadCSV now st
                = Normal
                    (Some (Download (Plain csv)
                             ("registrations_" +:+ pretty now +:+ ".csv")
                             "application/json"))).
Proof.
  intros Hst. split.
  - intros ->. unfold downloadCSV, exportToCSV. by rewrite Hst.
  - intros table Hne Htable. eexists. split; [by apply (exportToCSV_table st l)|].
    unfold downloadCSV. rewrite (exportToCSV_table st l table) by done.
    cbn [mbind completion_bind].
    unfold Str.Number_toString. simpl. rewrite Z.mod_1_r, Z.div_1_r.
    by destruct table.
Qed.

Lemma csv_download_witness :
  getAllRegistrations Sample.alice_saved
  = JArr [JObj (with_metadata Sample.t0 Sample.iso0 Sample.alice)]
  ∧ Forall2 (λ reg strs, rendered reg = Normal strs)
      [JObj (with_metadata Sample.t0 Sample.iso0 Sample.alice)]
      [Sample.alice_cells]
  ∧ ∃ csv, downloadCSV 1709634030000 Sample.alice_saved
           = Normal (Some (Download (Plain csv)
                             "registrations_1709634030000.csv"
                             "application/json")).
Proof.
  assert (Htable : Forall2 (λ reg strs, rendered reg = Normal strs)
            [JObj (with_metadata Sample.t0 Sample.iso0 Sample.alice)]
            [Sample.alice_cells]).
  { constructor; [reflexivity | constructor]. }
  split; [reflexivity|]. split; [exact Htable|].
  destruct (csv_download 1709634030000 Sample.alice_saved _ eq_refl) as [_ H].
  destruct (H [Sample.alice_cells]) as (csv & _ & Hd);
    [discriminate | exact Htable |].
  exists csv. exact Hd.
Defined.

(** ** Statistics *)

Section statistics_facts.
Context `{environment : Primitives}.

Lemma count_where_records k c (recs : list (gmap string value)) :
  count_where k c (JObj <$> recs) = Normal (occurrences k c recs).
Proof.
  unfold count_where, occurrences.
  rewrite (filter_records _ (λ o, JS.strict_eq (o !! k) (Some (JStr c))))
    by done.
  simpl. by rewrite length_fmap.
Qed.

Lemma inject_Z_succ n :
  (inject_Z (Z.of_nat n) + 1)%Q = inject_Z (Z.of_nat (S n)).
Proof. unfold Qplus, inject_Z. simpl. f_equal. lia. Qed.

Lemma truthy_count n : JS.truthy (JNum (inject_Z (Z.of_nat (S n)))) = true.
Proof. done. Qed.

Lemma occurrences_cons field c o recs :
  occurrences field c (o :: recs)
  = (if JS.strict_eq (o !! field) (Some (JStr c)) then 1 else 0)
    + occurrences field c recs.
Proof.
  unfold occurrences. simpl.
  by destruct (JS.strict_eq (o !! field) (Some (JStr c))).
Qed.

(** The loop of [groupByField] from any tallies [f] kept so far. *)
Lemma group_loop_tally inherited field (recs : list (gmap string value)) :
  (∀ o, o ∈ recs → plain inherited field o) →
  ∀ (acc : gmap string value) (f : string → nat),
    f JS.empty = 0 →
    (∀ c, acc !! c = tally (f c)) →
    ∃ m, group_loop inherited field acc (JObj <$> recs) = Normal m
         ∧ m !! JS.empty = None
         ∧ ∀ c, c ≠ JS.empty →
                m !! c = tally (f c + occurrences field c recs).
Proof.
  induction recs as [|o recs IH]; intros Hplain acc f Hf0 Hacc.
  - exists acc. split; [done|]. split; [by rewrite Hacc, Hf0|].
    intros c _. by rewrite Hacc, Nat.add_0_r.
  - assert (∀ o', o' ∈ recs → plain inherited field o') as Hrest
      by (intros o' Ho'; apply Hplain; by right).
    cbn [fmap list_fmap group_loop]. unfold group_step. cbn [field_of].
    cbn [mbind completion_bind].
    destruct (Hplain o) as [[Hnone Hfield]|(c0 & Hc0 & Hinh)]; [by left| |].
    + rewrite Hnone, Hfield. simpl.
      destruct (IH Hrest acc f Hf0 Hacc) as (m & -> & Hm0 & Hm).
      exists m. split; [done|]. split; [done|]. intros c Hc.
      by rewrite occurrences_cons, Hnone, (Hm c Hc).
    + rewrite Hc0. simpl JS.truthy_opt.
      destruct (String.eqb_spec c0 JS.empty) as [->|Hne].
      * simpl. destruct (IH Hrest acc f Hf0 Hacc) as (m & -> & Hm0 & Hm).
        exists m. split; [done|]. split; [done|]. intros c Hc.
        rewrite occurrences_cons, Hc0, (Hm c Hc). simpl.
        by destruct c.
      * cbn [negb Str.ToString_opt Str.ToString mbind completion_bind].
        rewrite Hinh, andb_false_r.
        set (f' := λ c, f c + (if String.eqb c0 c then 1 else 0)).
        match goal with
        | |- context [?step ≫= (λ grouped, group_loop _ _ grouped _)] =>
            assert (step
                    = Normal (<[c0 := JNum (inject_Z (Z.of_nat (S (f c0))))]>
                                acc)) as ->
        end.
        { rewrite Hacc. destruct (f c0) as [|n]; [done|].
          cbn [tally]. rewrite truthy_count.
          cbn [plus_one mbind completion_bind]. by rewrite inject_Z_succ. }
        cbn [mbind completion_bind].
        destruct (IH Hrest (<[c0 := JNum (inject_Z (Z.of_nat (S (f c0))))]> acc)
                    f') as (m & -> & Hm0 & Hm).
        { unfold f'. rewrite Hf0.
          destruct (String.eqb_spec c0 JS.empty); [congruence | done]. }
        { intros c. unfold f'. destruct (String.eqb_spec c0 c) as [<-|Hc].
          - rewrite lookup_insert_eq, Nat.add_1_r. done.
          - rewrite lookup_insert_ne, Nat.add_0_r by done. apply Hacc. }
        exists m. split; [done|]. split; [done|]. intros c Hc.
        rewrite (Hm c Hc), occurrences_cons, Hc0. unfold f'. simpl.
        f_equal. lia.
Qed.

(** [groupByField] over records whose field is absent (from the record and
    from [Object.prototype]) or a string that names nothing in
    [Object.prototype]: the result has one property per distinct non-empty
    value, holding the number of records with that value; records without
    the field, or with an empty one, are not counted.  A field name that
    [Object.prototype] has, such as [constructor], is read from the prototype
    by the records that lack it: a single such record is grouped under the
    text of what it inherits. *)
Theorem group_by_field inherited field (recs : list (gmap string value)) :
  ((∀ o, o ∈ recs → plain inherited field o) →
   ∃ grouped,
     groupByField inherited (JObj <$> recs) field = Normal grouped
     ∧ grouped !! JS.empty = None
     ∧ ∀ c, c ≠ JS.empty → grouped !! c = tally (occurrences field c recs))
  ∧ (∀ o text,
       o !! field = None → inherited field = Some (JStr text) →
       text ≠ JS.empty → text ≠ "__proto__" → inherited text = None →
       groupByField inherited [JObj o] field
       = Normal {[ text := JNum 1 ]}).
Proof.
  split.
  - intros Hplain. unfold groupByField.
    destruct (group_loop_tally inherited field recs Hplain ∅ (λ _, 0))
      as (m & Hm & Hm0 & Hmc); [done | done |].
    exists m. split; [done|]. split; [done|]. intros c Hc. by rewrite Hmc.
  - intros o text Ho Hinh Htext Hproto Hnone.
    unfold groupByField. cbn [group_loop]. unfold group_step. cbn [field_of].
    cbn [mbind completion_bind]. rewrite Ho, Hinh. simpl JS.truthy_opt.
    destruct (String.eqb_spec text JS.empty) as [|_]; [done|].
    cbn [negb Str.ToString_opt Str.ToString mbind completion_bind].
    rewrite lookup_empty, Hnone.
    cbn [plus_one mbind completion_bind]. rewrite andb_false_r.
    by rewrite insert_empty.
Qed.

(** A value that names a function of [Object.prototype] is not counted: the
    first record with such a city finds the inherited function where the
    count should be, and the property becomes the text of that function
    followed by ["1"]. *)
Theorem inherited_name_tally inherited field (o : gmap string value) c text :
  o !! field = Some (JStr c) →
  c ≠ JS.empty → c ≠ "__proto__" → text ≠ JS.empty →
  inherited c = Some (JStr text) →
  groupByField inherited [JObj o] field
  = Normal {[ c := JStr (text +:+ "1") ]}.
Proof.
  intros Ho Hc Hproto Htext Hinh.
  unfold groupByField. cbn [group_loop]. unfold group_step. cbn [field_of].
  cbn [mbind completion_bind]. rewrite Ho. simpl JS.truthy_opt.
  destruct (String.eqb_spec c JS.empty) as [|_]; [done|].
  cbn [negb Str.ToString_opt Str.ToString mbind completion_bind].
  rewrite lookup_empty, Hinh. simpl JS.truthy.
  destruct (String.eqb_spec text JS.empty) as [|_]; [done|].
  cbn [negb plus_one Str.ToString mbind completion_bind].
  destruct (String.eqb_spec c "__proto__") as [|_]; [done|].
  by rewrite insert_empty.
Qed.

Lemma filter_length_all {A} (q : A → bool) (l : list A) :
  length (List.filter q l) = length l ↔ ∀ x, x ∈ l → q x = true.
Proof.
  split.
  - intros H%filter_all. rewrite <- H.
    intros x Hx. eapply Forall_forall in Hx; [|apply filter_Forall]. done.
  - intros H. f_equal. induction l as [|x l IH]; simpl; [done|].
    rewrite (H x) by left. f_equal. apply IH. intros y Hy. apply H. by right.
Qed.

(** Of three different strings a field equals at most one. *)
Lemma occurrences_three k a b c (recs : list (gmap string value)) :
  a ≠ b → a ≠ c → b ≠ c →
  occurrences k a recs + occurrences k b recs + occurrences k c recs
  = length
      (List.filter
         (λ o, JS.strict_eq (o !! k) (Some (JStr a))
               || JS.strict_eq (o !! k) (Some (JStr b))
               || JS.strict_eq (o !! k) (Some (JStr c))) recs).
Proof.
  intros Hab Hac Hbc. induction recs as [|o recs IH]; [done|].
  rewrite !occurrences_cons. cbn [List.filter].
  destruct (JS.strict_eq (o !! k) (Some (JStr a))) eqn:Ea;
    destruct (JS.strict_eq (o !! k) (Some (JStr b))) eqn:Eb;
    destruct (JS.strict_eq (o !! k) (Some (JStr c))) eqn:Ec;
    try apply strict_eq_string in Ea; try apply strict_eq_string in Eb;
    try apply strict_eq_string in Ec; try congruence; simpl; lia.
Qed.

(** [getStatistics] on a stored collection of records whose cities and
    states are plain: the total is the number of records, each count is the
    number of records with exactly that type or status, and the groups tally
    the cities and states.  The three type counts add up to at most the
    total, and to the total exactly when every record has one of the three
    types: records of another type are counted in the total only. *)
Theorem statistics_counts inherited st (recs : list (gmap string value)) :
  getAllRegistrations st = JArr (JObj <$> recs) →
  (∀ o, o ∈ recs → plain inherited "city" o ∧ plain inherited "state" o) →
  ∃ s, getStatistics inherited st = Normal s
       ∧ total s = length recs
       ∧ individual (by_type s) = occurrences "type" "Individual" recs
       ∧ agency (by_type s) = occurrences "type" "Agency" recs
       ∧ subAgency (by_type s) = occurrences "type" "Sub Agency" recs
       ∧ active (by_status s) = occurrences "status" "Active" recs
       ∧ inactive (by_status s) = occurrences "status" "Inactive" recs
       ∧ suspended (by_status s) = occurrences "status" "Suspended" recs
       ∧ individual (by_type s) + agency (by_type s) + subAgency (by_type s)
         ≤ total s
       ∧ (individual (by_type s) + agency (by_type s) + subAgency (by_type s)
          = total s
          ↔ ∀ o, o ∈ recs →
                 o !! "type" = Some (JStr "Individual")
                 ∨ o !! "type" = Some (JStr "Agency")
                 ∨ o !! "type" = Some (JStr "Sub Agency"))
       ∧ (∀ c, c ≠ JS.empty →
               byCities s !! c = tally (occurrences "city" c recs))
       ∧ (∀ c, c ≠ JS.empty →
               byStates s !! c = tally (occurrences "state" c recs)).
Proof.
  intros Hst Hplain.
  destruct (group_loop_tally inherited "city" recs) with
    (acc := (∅ : gmap string value)) (f := λ _ : string, 0)
    as (cities & Hc & _ & Hcs); [intros o Ho; by apply Hplain | done | done |].
  destruct (group_loop_tally inherited "state" recs) with
    (acc := (∅ : gmap string value)) (f := λ _ : string, 0)
    as (states & Hs & _ & Hss); [intros o Ho; by apply Hplain | done | done |].
  eexists. split.
  { unfold getStatistics.
    unfold groupByField.
    rewrite Hst, !count_where_records, Hc, Hs, length_fmap. done. }
  cbn [total by_type by_status individual agency subAgency active inactive
       suspended byCities byStates].
  repeat (split; [done|]).
  rewrite occurrences_three by done.
  split; [apply List.filter_length_le|]. split; [|done].
  rewrite filter_length_all. split.
  - intros H o Ho. specialize (H o Ho).
    rewrite !orb_true_iff, !strict_eq_string in H. tauto.
  - intros H o Ho. specialize (H o Ho).
    rewrite !orb_true_iff, !strict_eq_string. tauto.
Qed.

End statistics_facts.

Lemma group_by_field_witness :
  (∀ o, o ∈ [Sample.alice; Sample.bob; Fixture.carol] →
        plain Fixture.prototype "city" o)
  ∧ (∀ o, o ∈ [Fixture.built; Fixture.built] →
          plain Fixture.prototype "constructor" o)
  ∧ (∃ grouped,
       groupByField Fixture.prototype
         (JObj <$> [Sample.alice; Sample.bob; Fixture.carol]) "city"
       = Normal grouped
       ∧ grouped !! "Mysuru" = Some (JNum 2)
       ∧ grouped !! "Pune" = Some (JNum 1)
       ∧ grouped !! "Hubli" = None)
  ∧ (∃ grouped,
       groupByField Fixture.prototype
         (JObj <$> [Fixture.built; Fixture.built]) "constructor"
       = Normal grouped
       ∧ grouped !! "Acme" = Some (JNum 2))
  ∧ groupByField Fixture.prototype
      [JObj Fixture.unbuilt] "constructor"
    = Normal {[ "function Object() { [native code] }" := JNum 1 ]}.
Proof.
  assert (∀ o, o ∈ [Sample.alice; Sample.bob; Fixture.carol] →
               plain Fixture.prototype "city" o) as Hplain.
  { intros o Ho.
    repeat (apply elem_of_cons in Ho as [->|Ho];
            [right; eexists; split; reflexivity|]).
    by apply elem_of_nil in Ho. }
  assert (∀ o, o ∈ [Fixture.built; Fixture.built] →
               plain Fixture.prototype "constructor" o) as Hbuilt.
  { intros o Ho.
    repeat (apply elem_of_cons in Ho as [->|Ho];
            [right; eexists; split; reflexivity|]).
    by apply elem_of_nil in Ho. }
  split; [exact Hplain|]. split; [exact Hbuilt|].
  destruct (group_by_field Fixture.prototype "city"
              [Sample.alice; Sample.bob; Fixture.carol]) as [Hcity _].
  destruct (Hcity Hplain) as (grouped & Hg & _ & Hc).
  destruct (group_by_field Fixture.prototype "constructor"
              [Fixture.built; Fixture.built]) as [Hcons Hinherit].
  destruct (Hcons Hbuilt) as (grouped' & Hg' & _ & Hc').
  split; [|split].
  - exists grouped. split; [exact Hg|].
    rewrite !Hc by discriminate. repeat split; reflexivity.
  - exists grouped'. split; [exact Hg'|].
    rewrite Hc' by discriminate. reflexivity.
  - apply (Hinherit Fixture.unbuilt); (reflexivity || discriminate).
Defined.

Lemma inherited_name_tally_witness :
  groupByField Fixture.prototype
    [JObj (Sample.obj [("city", JStr "constructor")])] "city"
  = Normal {[ "constructor" := JStr "function Object() { [native code] }1" ]}.
Proof.
  apply (inherited_name_tally Fixture.prototype "city" _ "constructor"
           "function Object() { [native code] }");
    (reflexivity || discriminate).
Defined.

Lemma statistics_counts_witness :
  getAllRegistrations Fixture.three_saved
  = JArr (JObj <$> [with_metadata Sample.t0 Sample.iso0 Sample.alice;
                    with_metadata Sample.t0 Sample.iso1 Sample.bob;
                    with_metadata 1709634030000 Sample.iso2 Fixture.carol])
  ∧ ∃ s, getStatistics Fixture.prototype Fixture.three_saved = Normal s
         ∧ total s = 3
         ∧ individual (by_type s) + agency (by_type s) + subAgency (by_type s)
           = 2
         ∧ byCities s !! "Mysuru" = Some (JNum 2).
Proof.
  split; [reflexivity|].
  destruct (statistics_counts Fixture.prototype Fixture.three_saved
              [with_metadata Sample.t0 Sample.iso0 Sample.alice;
               with_metadata Sample.t0 Sample.iso1 Sample.bob;
               with_metadata 1709634030000 Sample.iso2 Fixture.carol] eq_refl)
    as (s & Hs & Ht & Hi & Ha & Hsub & _ & _ & _ & _ & _ & Hc & _).
  { intros o Ho.
    repeat (apply elem_of_cons in Ho as [->|Ho];
            [split; right; eexists; split; reflexivity|]).
    by apply elem_of_nil in Ho. }
  exists s. split; [exact Hs|]. split; [exact Ht|].
  split; [rewrite Hi, Ha, Hsub; reflexivity|].
  rewrite Hc by discriminate. reflexivity.
Defined.

(** ** Search *)

Lemma filter_records_in (p : value → completion bool)
    (q : gmap string value → bool) (recs : list (gmap string value)) :
  (∀ o, o ∈ recs → p (JObj o) = Normal (q o)) →
  JS.filter p (JObj <$> recs) = Normal (JObj <$> List.filter q recs).
Proof.
  induction recs as [|o recs IH]; intros Hp; [done|].
  cbn [fmap list_fmap JS.filter List.filter]. rewrite Hp by left. simpl.
  change (JS.filter p (JObj <$> recs) ≫= _)
    with (r ← JS.filter p (JObj <$> recs);
          Normal (if q o then JObj o :: r else r)).
  rewrite IH by (intros o' Ho'; apply Hp; by right).
  simpl. by destruct (q o).
Qed.

Lemma filter_Throw (p : value → completion bool) e l :
  (∀ x, x ∈ l → (∃ b, p x = Normal b) ∨ p x = Throw e) →
  (∃ x, x ∈ l ∧ p x = Throw e) →
  JS.filter p l = Throw e.
Proof.
  induction l as [|y l IH]; intros Hall (x & Hx & Hpx).
  - by apply elem_of_nil in Hx.
  - simpl. destruct (Hall y) as [[b Hb]|Hy]; [by left| |by rewrite Hy].
    rewrite Hb. simpl. rewrite IH; [done| |].
    + intros z Hz. apply Hall. by right.
    + apply elem_of_cons in Hx as [->|Hx]; [congruence|eauto].
Qed.

Lemma includes_empty s : includes s JS.empty = true.
Proof. by destruct s. Qed.

Lemma filter_true {A} (l : list A) : List.filter (λ _, true) l = l.
Proof. induction l as [|x l IH]; simpl; [done|]. by rewrite IH. Qed.




(** The empty term matches the name of every record: when every record has
    a string [name], [searchRegistrations] with the empty term returns the
    whole collection, also when other fields are missing -- the later fields
    are read only if the earlier ones do not match. *)
Theorem search_empty_term toLowerCase st (recs : list (gmap string value)) :
  toLowerCase JS.empty = JS.empty →
  getAllRegistrations st = JArr (JObj <$> recs) →
  (∀ o, o ∈ recs → ∃ s, o !! "name" = Some (JStr s)) →
  searchRegistrations toLowerCase JS.empty st = Normal (JObj <$> recs).
Proof.
  intros Hlow Hst Hnames. unfold searchRegistrations. rewrite Hst, Hlow.
  rewrite (filter_records_in _ (λ _, true)); [by rewrite filter_true|].
  intros o [s Hs]%Hnames. unfold search_matches, lower_includes. simpl JS.get.
  cbn [mbind completion_bind]. rewrite Hs. cbn [mbind completion_bind].
  by rewrite includes_empty.
Qed.

Lemma search_empty_term_witness :
  Fixture.lower JS.empty = JS.empty
  ∧ searchRegistrations Fixture.lower JS.empty
      (State None
         (Some (Encodes (JArr (JObj <$> [Sample.short_postal; Sample.alice])))))
    = Normal (JObj <$> [Sample.short_postal; Sample.alice]).
Proof.
  split; [reflexivity|].
  apply search_empty_term; [reflexivity | reflexivity |].
  intros o Ho.
  repeat (apply elem_of_cons in Ho as [->|Ho]; [eexists; reflexivity|]).
  by apply elem_of_nil in Ho.
Defined.

Lemma search_matches_cases toLowerCase term o :
  (∃ b, search_matches toLowerCase term (JObj o) = Normal b)
  ∨ search_matches toLowerCase term (JObj o) = Throw TypeError.
Proof.
  unfold search_matches, lower_includes. simpl JS.get.
  cbn [mbind completion_bind].
  repeat match goal with
  | |- context [match ?o !! ?k with _ => _ end] =>
      destruct (o !! k) as [[| | |?| |]|]; cbn [mbind completion_bind];
      eauto
  | |- context [if includes ?a ?t then _ else _] =>
      destruct (includes a t); eauto
  end.
Qed.

(** A record whose [name] is missing or is not a string makes the whole
    search throw a TypeError, whatever the term and the other records. *)
Theorem search_missing_name toLowerCase term st
    (recs : list (gmap string value)) :
  getAllRegistrations st = JArr (JObj <$> recs) →
  (∃ o, o ∈ recs ∧ ∀ s, o !! "name" ≠ Some (JStr s)) →
  searchRegistrations toLowerCase term st = Throw TypeError.
Proof.
  intros Hst (o & Ho & Hname). unfold searchRegistrations. rewrite Hst.
  apply filter_Throw.
  - intros x (o' & -> & _)%list_elem_of_fmap. apply search_matches_cases.
  - exists (JObj o). split; [by apply list_elem_of_fmap_2|].
    unfold search_matches, lower_includes. simpl JS.get.
    cbn [mbind completion_bind].
    destruct (o !! "name") as [[| | |s| |]|]; try done. by destruct (Hname s).
Qed.

Lemma search_missing_name_witness :
  (∀ s, Sample.obj [("city", JStr "Ann Arbor")] !! "name" ≠ Some (JStr s))
  ∧ searchRegistrations Fixture.lower "ann"
      (State None
         (Some (Encodes
                  (JArr (JObj <$> [Sample.two_line_name;
                                   Sample.obj [("city", JStr "Ann Arbor")]])))))
    = Throw TypeError.
Proof.
  assert (∀ s, Sample.obj [("city", JStr "Ann Arbor")] !! "name"
               ≠ Some (JStr s)) as Hname by (intros s; discriminate).
  split; [exact Hname|].
  apply (search_missing_name Fixture.lower "ann" _
           [Sample.two_line_name; Sample.obj [("city", JStr "Ann Arbor")]]);
    [reflexivity|].
  exists (Sample.obj [("city", JStr "Ann Arbor")]).
  split; [right; left | exact Hname].
Defined.

(** ** Date range *)

Lemma Date_value_flat Date_parse v :
  flat v = true → ∃ t, Date_value Date_parse v = Normal t.
Proof. destruct v as [[]|]; simpl; eauto; done. Qed.

Lemma date_callback_record Date_parse start end_ (o : gmap string value) :
  flat (o !! "submittedAt") = true →
  (submittedAt ← JS.get (JObj o) "submittedAt";
   regDate ← Date_value Date_parse submittedAt;
   Normal (in_range regDate start end_))
  = Normal (in_range (stamp_time Date_parse o) start end_).
Proof.
  intros Hflat. unfold stamp_time. simpl JS.get. cbn [mbind completion_bind].
  by destruct (Date_value_flat Date_parse _ Hflat) as [t ->].
Qed.

Lemma filter_sublist_mono {A} (q q' : A → bool) (l : list A) :
  (∀ x, q x = true → q' x = true) →
  List.filter q l `sublist_of` List.filter q' l.
Proof.
  intros H. induction l as [|x l IH]; simpl; [done|].
  destruct (q x) eqn:E.
  - rewrite (H x E). by apply sublist_skip.
  - destruct (q' x); [by apply sublist_cons | done].
Qed.



(** Widening the range never loses a record: with an earlier start and a
    later end, the records returned for the narrower range are among those
    returned for the wider one, in the same order. *)
Theorem date_range_monotone Date_parse start1 end1 start2 end2 st
    (recs : list (gmap string value)) s1 e1 s2 e2 :
  getAllRegistrations st = JArr (JObj <$> recs) →
  (∀ o, o ∈ recs → flat (o !! "submittedAt") = true) →
  Date_parse start1 = Some s1 → Date_parse end1 = Some e1 →
  Date_parse start2 = Some s2 → Date_parse end2 = Some e2 →
  (s2 ≤ s1)%Z → (e1 ≤ e2)%Z →
  ∃ narrow wide,
    getRegistrationsByDateRange Date_parse start1 end1 st = Normal narrow
    ∧ getRegistrationsByDateRange Date_parse start2 end2 st = Normal wide
    ∧ narrow `sublist_of` wide.
Proof.
  intros Hst Hflat Hs1 He1 Hs2 He2 Hs He.
  eexists _, _. split; [|split].
  - unfold getRegistrationsByDateRange. rewrite Hst.
    apply filter_records_in. intros o Ho.
    by apply date_callback_record, Hflat.
  - unfold getRegistrationsByDateRange. rewrite Hst.
    apply filter_records_in. intros o Ho.
    by apply date_callback_record, Hflat.
  - apply fmap_sublist, filter_sublist_mono. intros o.
    rewrite Hs1, He1, Hs2, He2. unfold in_range.
    destruct (stamp_time Date_parse o) as [t|]; [|done].
    rewrite !andb_true_iff, !Z.leb_le. lia.
Qed.

Lemma date_range_monotone_witness :
  getAllRegistrations Fixture.three_saved
  = JArr (JObj <$> [with_metadata Sample.t0 Sample.iso0 Sample.alice;
                    with_metadata Sample.t0 Sample.iso1 Sample.bob;
                    with_metadata 1709634030000 Sample.iso2 Fixture.carol])
  ∧ ∃ narrow wide,
      getRegistrationsByDateRange Fixture.parse "2024-02-01" "2024-12-31"
        Fixture.three_saved = Normal narrow
      ∧ getRegistrationsByDateRange Fixture.parse "2024-01-01T00:00:00.000Z"
          "2024-12-31" Fixture.three_saved = Normal wide
      ∧ narrow `sublist_of` wide.
Proof.
  split; [reflexivity|].
  apply (date_range_monotone Fixture.parse _ _ _ _ Fixture.three_saved
           [with_metadata Sample.t0 Sample.iso0 Sample.alice;
            with_metadata Sample.t0 Sample.iso1 Sample.bob;
            with_metadata 1709634030000 Sample.iso2 Fixture.carol]
           1706745600000 1735603200000 1704067200000 1735603200000);
    try reflexivity; try lia.
  intros o Ho.
  repeat (apply elem_of_cons in Ho as [->|Ho]; [reflexivity|]).
  by apply elem_of_nil in Ho.
Defined.

(** ** The download that follows a save *)

Lemma Number_toString_integer n : Str.Number_toString (inject_Z n) = pretty n.
Proof.
  unfold Str.Number_toString. simpl. by rewrite Z.mod_1_r, Z.div_1_r.
Qed.

Lemma downloadAllRegistrations_array iso now st l :
  getAllRegistrations st = JArr l → l ≠ [] →
  downloadAllRegistrations iso now st
  = Normal
      (true,
       Some (Download
               (Json (JSON_stringify
                        (exportData iso
                           (Some (JNum (inject_Z (Z.of_nat (length l)))))
                           (JArr l))))
               ("all_registrations_" +:+ pretty now +:+ ".json")
               "application/json")).
Proof.
  intros Hst Hne. unfold downloadAllRegistrations. rewrite Hst.
  cbn [length_of js_length mbind completion_bind].
  rewrite is_zero_length, bool_decide_eq_false_2 by done.
  by rewrite Number_toString_integer.
Qed.

(** The download that [saveToJSON] starts after a successful save is never
    refused for want of records: on a stored array, the bundle downloaded
    right after the save holds the earlier elements followed by the new
    record, and counts one more than before. *)
Theorem save_then_bundle now iso data st l iso' now' :
  getAllRegistrations st = JArr l →
  downloadAllRegistrations iso' now' (saveToJSON now iso data st).2
  = Normal
      (true,
       Some (Download
               (Json (JSON_stringify
                        (exportData iso'
                           (Some (JNum (inject_Z (Z.of_nat (S (length l))))))
                           (JArr (l ++ [JObj (with_metadata now iso data)])))))
               ("all_registrations_" +:+ pretty now' +:+ ".json")
               "application/json")).
Proof.
  intros Hst. rewrite (saveToJSON_array _ _ _ _ _ Hst). cbn [snd].
  rewrite (downloadAllRegistrations_array iso' now' _
             (l ++ [JObj (with_metadata now iso data)]));
    [|done|by destruct l].
  by rewrite length_app, Nat.add_1_r.
Qed.

Lemma save_then_bundle_witness :
  getAllRegistrations Sample.empty_store = JArr []
  ∧ downloadAllRegistrations Sample.iso0 1704067200005 Sample.alice_saved
    = Normal
        (true,
         Some (Download
                 (Json (JSON_stringify
                          (exportData Sample.iso0 (Some (JNum 1))
                             (JArr [JObj (with_metadata Sample.t0 Sample.iso0
                                            Sample.alice)]))))
                 "all_registrations_1704067200005.json"
                 "application/json")).
Proof.
  split; [reflexivity|].
  apply (save_then_bundle Sample.t0 Sample.iso0 Sample.alice
           Sample.empty_store [] Sample.iso0 1704067200005).
  reflexivity.
Defined.
